(** * Admission validation of InferenceService resources

    A shallow embedding of
    [pkg/apis/serving/v1beta1/inference_service_validation.go]
    and the properties of its rule evaluators.

    Go strings are [string] (sequences of bytes), Go [int]/[int32] values are
    [Z], pointers are [option], maps from string to string are
    [gmap string string], slices are lists.  A Go function returning [error]
    becomes a function into [outcome (option error)]: it either returns
    ([Returns None] for a nil error) or panics on a nil dereference. *)

From Stdlib Require Import ZArith QArith Qcanon Ascii String List Bool Lia.
From stdpp Require Import base option list strings gmap pretty numbers.

Open Scope string_scope.
Open Scope Z_scope.

(** ** Go runtime: errors and panics *)

(** The format constants of package v1beta1 that [fmt.Errorf] is called with.
    Their text is declared outside the validated file; an error built from one
    of them is identified by the constant and the arguments. *)
Inductive ErrorFormat :=
| InvalidISVCNameFormatError
| DisallowedMultipleContainersInWorkerSpecError
| DisallowedWorkerSpecPipelineParallelSizeEnvError
| DisallowedWorkerSpecTensorParallelSizeEnvError
| InvalidUnknownGPUTypeError
| MissingStorageURI
| InvalidNotSupportedStorageURIProtocolError
| InvalidAutoScalerError
| InvalidWorkerSpecPipelineParallelSizeValueError
| InvalidWorkerSpecTensorParallelSizeValueError
| ExactlyOneErrorFormat
| Literal (format : string).

(** A non-nil Go [error]: what built it and from what. *)
Inductive error :=
| fmt_Errorf (format : ErrorFormat) (args : list string)
| errors_New (msg : string)
| foreign_error (msg : string).

(** What a call does: it returns a value, or it panics. *)
Inductive outcome (A : Type) :=
| Returns (a : A)
| Panics.
Arguments Returns {A} a.
Arguments Panics {A}.

(** [if err := c; err != nil { return err }; k] *)
Definition check (c : outcome (option error)) (k : outcome (option error))
  : outcome (option error) :=
  match c with
  | Returns None => k
  | Returns (Some e) => Returns (Some e)
  | Panics => Panics
  end.

Notation "'do!' c ';!' k" := (check c k)
  (at level 10, c at level 100, k at level 200).

(** [*p]: dereferencing a nil pointer panics. *)
Definition deref {A B} (p : option A) (k : A -> outcome B) : outcome B :=
  match p with
  | Some a => k a
  | None => Panics
  end.

Definition accepted (r : outcome (option error)) : Prop := r = Returns None.
Definition rejected (r : outcome (option error)) : Prop :=
  exists e, r = Returns (Some e).

(** ** Go standard library *)

(** [slices.Contains] on strings. *)
Definition slices_Contains (l : list string) (x : string) : bool :=
  existsb (fun y => bool_decide (y = x)) l.

(** [strings.Split(s, sep)] for a non-empty [sep]: [skip] counts the bytes of
    a separator still to be dropped, [cur] is the piece being read. *)
Fixpoint Split_go (sep : string) (skip : nat) (cur : string) (s : string)
  : list string :=
  match s with
  | EmptyString => [cur]
  | String c s' =>
      match skip with
      | S k => Split_go sep k cur s'
      | O =>
          if String.prefix sep s
          then cur :: Split_go sep (Nat.pred (String.length sep)) "" s'
          else Split_go sep O (cur ++ String c "") s'
      end
  end.

Definition strings_Split (s sep : string) : list string :=
  Split_go sep O "" s.

(** [strconv.Itoa] *)
Definition strconv_Itoa (n : Z) : string := pretty n.

(** [strconv.Atoi]: an optional sign, then one or more decimal digits, and the
    value has to fit 64 bits; [None] is a non-nil error. *)
Definition digit_of (c : ascii) : option Z :=
  let n := Z.of_N (N_of_ascii c) in
  if (48 <=? n) && (n <=? 57) then Some (n - 48) else None.

Fixpoint parse_digits (acc : Z) (s : string) : option Z :=
  match s with
  | EmptyString => Some acc
  | String c s' =>
      match digit_of c with
      | Some d => parse_digits (acc * 10 + d) s'
      | None => None
      end
  end.

Definition strconv_Atoi (s : string) : option Z :=
  let '(neg, body) :=
    match s with
    | String "-" s' => (true, s')
    | String "+" s' => (false, s')
    | _ => (false, s)
    end in
  match body with
  | EmptyString => None
  | _ =>
      match parse_digits 0 body with
      | Some n =>
          let v := if neg then - n else n in
          if (- 2 ^ 63 <=? v) && (v <=? 2 ^ 63 - 1) then Some v else None
      | None => None
      end
  end.

(** ** Regular expressions (package regexp) *)

(** The fragment of the syntax [IsvcNameFmt] is written in.  A class is a list
    of inclusive byte ranges.  The classes of [IsvcNameFmt] hold ASCII
    characters only, so matching bytes and matching runes agree. *)
Inductive regexp :=
| NoMatch
| EmptyMatch
| CharClass (ranges : list (ascii * ascii))
| Concat (r1 r2 : regexp)
| Alternate (r1 r2 : regexp)
| Star (r : regexp).

(** [r?] *)
Definition Quest (r : regexp) : regexp := Alternate r EmptyMatch.

Definition in_range (c : ascii) (r : ascii * ascii) : bool :=
  ((N_of_ascii (fst r) <=? N_of_ascii c) && (N_of_ascii c <=? N_of_ascii (snd r)))%N.

Definition in_class (ranges : list (ascii * ascii)) (c : ascii) : bool :=
  existsb (in_range c) ranges.

Fixpoint nullable (r : regexp) : bool :=
  match r with
  | NoMatch => false
  | EmptyMatch => true
  | CharClass _ => false
  | Concat r1 r2 => nullable r1 && nullable r2
  | Alternate r1 r2 => nullable r1 || nullable r2
  | Star _ => true
  end.

Fixpoint derive (c : ascii) (r : regexp) : regexp :=
  match r with
  | NoMatch => NoMatch
  | EmptyMatch => NoMatch
  | CharClass rs => if in_class rs c then EmptyMatch else NoMatch
  | Concat r1 r2 =>
      if nullable r1
      then Alternate (Concat (derive c r1) r2) (derive c r2)
      else Concat (derive c r1) r2
  | Alternate r1 r2 => Alternate (derive c r1) (derive c r2)
  | Star r1 => Concat (derive c r1) (Star r1)
  end.

(** [regexp.MustCompile("^" + r + "$").MatchString(s)]: without the [m] flag
    [^] and [$] are the two ends of the text, so the whole of [s] has to
    match [r]. *)
Fixpoint MatchString (r : regexp) (s : string) : bool :=
  match s with
  | EmptyString => nullable r
  | String c s' => MatchString (derive c r) s'
  end.

(** The language of a regular expression. *)
Inductive in_lang : regexp -> string -> Prop :=
| in_lang_empty : in_lang EmptyMatch ""
| in_lang_class rs c : in_class rs c = true -> in_lang (CharClass rs) (String c "")
| in_lang_concat r1 r2 s1 s2 :
    in_lang r1 s1 -> in_lang r2 s2 -> in_lang (Concat r1 r2) (s1 ++ s2)
| in_lang_alt_l r1 r2 s : in_lang r1 s -> in_lang (Alternate r1 r2) s
| in_lang_alt_r r1 r2 s : in_lang r2 s -> in_lang (Alternate r1 r2) s
| in_lang_star_nil r : in_lang (Star r) ""
| in_lang_star_cons r s1 s2 :
    in_lang r s1 -> in_lang (Star r) s2 -> in_lang (Star r) (s1 ++ s2).

(** ** Constants and collaborators declared outside the validated file *)

(** Package [constants], and the metric names of package v1beta1.  The
    validated file only names them; every property below holds for whatever
    values they have, under the hypotheses it states. *)
Module constants.
Class t := {
  (* annotation keys *)
  AutoscalerClass : string;
  AutoscalerMetrics : string;
  TargetUtilizationPercentage : string;
  (* autoscaler classes *)
  AutoscalerClassHPA : string;
  AutoscalerClassKeda : string;
  AutoscalerClassExternal : string;
  AutoscalerAllowedClassList : list string;
  (* metric vocabularies *)
  AutoscalerAllowedHPAMetricsList : list string;
  AutoscalerAllowedKEDAMetricsList : list string;
  AutoscalerAllowedKEDAMetricBackendList : list string;
  AutoScalerKPAMetricsAllowedList : list string;
  (* tags of an autoscaling entry *)
  AutoScalerResource : string;
  AutoScalerExternal : string;
  (* deployment mode *)
  RawDeployment : string;
  (* containers and their environment *)
  PipelineParallelSizeEnvName : string;
  TensorParallelSizeEnvName : string;
  TransformerContainerName : string;
  CustomSpecStorageUriEnvVarKey : string;
  (* v1beta1.ScaleMetric values *)
  MetricCPU : string;
  MetricMemory : string;
  MetricConcurrency : string;
  MetricRPS : string
}.
End constants.

(** Package knative.dev/serving/pkg/apis/autoscaling. *)
Module autoscaling.
Definition ClassAnnotationKey : string := "autoscaling.knative.dev/class".
Definition HPA : string := "hpa.autoscaling.knative.dev".
End autoscaling.

(** ** Resource model *)

(** [resource.Quantity]: an exact number. *)
Definition Quantity : Type := Qc.

(** [resource.MustParse("1Mi")] *)
Definition Quantity_1Mi : Quantity := Q2Qc (inject_Z 1048576).

Module EnvVar.
Record t := mk { Name : string; Value : string }.
End EnvVar.

Module ResourceRequirements.
Record t := mk { Limits : gmap string Quantity; Requests : gmap string Quantity }.
End ResourceRequirements.

Module Container.
Record t := mk {
  Name : string;
  Env : list EnvVar.t;
  Resources : ResourceRequirements.t
}.
End Container.

Module MetricTarget.
Record t := mk {
  Value : option Quantity;
  AverageValue : option Quantity;
  AverageUtilization : option Z
}.
End MetricTarget.

Module ResourceMetricSource.
Record t := mk { Name : option string; Target : MetricTarget.t }.
End ResourceMetricSource.

Module ExternalMetrics.
Record t := mk { Backend : option string; Query : string }.
End ExternalMetrics.

Module ExternalMetricSource.
Record t := mk { Metric : ExternalMetrics.t; Target : MetricTarget.t }.
End ExternalMetricSource.

Module MetricsSpec.
Record t := mk {
  Type_ : string;
  Resource : option ResourceMetricSource.t;
  External : option ExternalMetricSource.t
}.
End MetricsSpec.

Module AutoScalingSpec.
Record t := mk { Metrics : list MetricsSpec.t }.
End AutoScalingSpec.

Module ComponentExtensionSpec.
Record t := mk {
  ScaleTarget : option Z;
  ScaleMetric : option string;
  AutoScaling : option AutoScalingSpec.t;
  (* only its presence is looked at *)
  DeploymentStrategy : option unit
}.
End ComponentExtensionSpec.

(** An implementation variant, seen through the [ComponentImplementation]
    interface: what its [Validate()] method returns. *)
Module ComponentImplementation.
Record t := mk { Validate : option error }.
End ComponentImplementation.

(** [ModelSpec]; [Container] is the embedded container of its
    [PredictorExtensionSpec], whose [Env] and [Resources] the code reads. *)
Module ModelSpec.
Record t := mk { StorageURI : option string; Container : Container.t }.
End ModelSpec.

Module WorkerSpec.
Record t := mk {
  Containers : list Container.t;
  PipelineParallelSize : option Z;
  TensorParallelSize : option Z
}.
End WorkerSpec.

(** [Implementations] holds the populated implementation variants of the
    component, in the order [GetImplementations()] lists them. *)
Module PredictorSpec.
Record t := mk {
  Model : option ModelSpec.t;
  WorkerSpec : option WorkerSpec.t;
  Containers : list Container.t;
  ComponentExtensionSpec : ComponentExtensionSpec.t;
  Implementations : list ComponentImplementation.t
}.
End PredictorSpec.

Module TransformerSpec.
Record t := mk {
  ComponentExtensionSpec : ComponentExtensionSpec.t;
  Implementations : list ComponentImplementation.t
}.
End TransformerSpec.

Module ExplainerSpec.
Record t := mk {
  ComponentExtensionSpec : ComponentExtensionSpec.t;
  Implementations : list ComponentImplementation.t
}.
End ExplainerSpec.

Module InferenceServiceSpec.
Record t := mk {
  Predictor : PredictorSpec.t;
  Transformer : option TransformerSpec.t;
  Explainer : option ExplainerSpec.t
}.
End InferenceServiceSpec.

Module InferenceService.
Record t := mk {
  Name : string;
  Annotations : gmap string string;
  Spec : InferenceServiceSpec.t
}.
End InferenceService.

(** A value of interface type [Component]: its methods and the name of the
    struct behind it. *)
Module Component.
Record t := mk {
  GetImplementations : list ComponentImplementation.t;
  GetExtensions : ComponentExtensionSpec.t;
  TypeName : string
}.
End Component.

Definition Component_of_Predictor (p : PredictorSpec.t) : Component.t :=
  Component.mk (PredictorSpec.Implementations p)
               (PredictorSpec.ComponentExtensionSpec p) "PredictorSpec".

Definition Component_of_Transformer (c : TransformerSpec.t) : Component.t :=
  Component.mk (TransformerSpec.Implementations c)
               (TransformerSpec.ComponentExtensionSpec c) "TransformerSpec".

Definition Component_of_Explainer (c : ExplainerSpec.t) : Component.t :=
  Component.mk (ExplainerSpec.Implementations c)
               (ExplainerSpec.ComponentExtensionSpec c) "ExplainerSpec".

(** [annotations[key]]: the zero value when the key is absent. *)
Definition index (annotations : gmap string string) (key : string) : string :=
  default "" (annotations !! key).

(** Package [utils]. *)
Module utils.

(** The collaborators the engine is handed: the GPU resource type lookup and
    the validation of the extension fields that this file does not read. *)
Class t := {
  IsUnknownGpuResourceType :
    ResourceRequirements.t -> gmap string string -> bool * option error;
  ComponentExtensionSpec_Validate : ComponentExtensionSpec.t -> option error
}.

(** Modelled from the spec: [utils.GetEnvVarValue], the environment lookup
    [LookupEnvVar(containerEnv, key) -> (value, found)]. *)
Fixpoint GetEnvVarValue (envVars : list EnvVar.t) (key : string) : string * bool :=
  match envVars with
  | [] => ("", false)
  | envVar :: rest =>
      if bool_decide (EnvVar.Name envVar = key)
      then (EnvVar.Value envVar, true)
      else GetEnvVarValue rest key
  end.

(** Modelled from the spec: [utils.FirstNonNilError], the first failure of a
    sequence of results. *)
Fixpoint FirstNonNilError (objects : list (option error)) : option error :=
  match objects with
  | [] => None
  | Some e :: _ => Some e
  | None :: rest => FirstNonNilError rest
  end.

End utils.

(** ** The rule evaluators *)

(** regular expressions for validation of isvc name *)
Definition IsvcNameFmt : string := "[a-z]([-a-z0-9]*[a-z0-9])?".

Definition StorageUriPresentInTransformerError : string :=
  "storage uri should not be specified in transformer container".

(** [IsvcRegexp = regexp.MustCompile("^" + IsvcNameFmt + "$")]: the syntax
    tree of [IsvcNameFmt]; [MatchString] supplies the two anchors. *)
Definition IsvcRegexp : regexp :=
  Concat (CharClass [("a", "z")]%char)
    (Quest (Concat (Star (CharClass [("-", "-"); ("a", "z"); ("0", "9")]%char))
                   (CharClass [("a", "z"); ("0", "9")]%char))).

Section Validation.
Context `{K : constants.t} `{U : utils.t}.

(** Validation of isvc name *)
Definition validateInferenceServiceName (isvc : InferenceService.t)
  : outcome (option error) :=
  if negb (MatchString IsvcRegexp (InferenceService.Name isvc))
  then Returns (Some (fmt_Errorf InvalidISVCNameFormatError
                        [InferenceService.Name isvc; IsvcNameFmt]))
  else Returns None.

(** Validate of autoscaler KEDA metrics *)
Definition validateKEDAMetrics (metric : string) : outcome (option error) :=
  if slices_Contains constants.AutoscalerAllowedKEDAMetricsList metric
  then Returns None
  else Returns (Some (fmt_Errorf
         (Literal "[%s] is not a supported metric in KEDA.\n") [metric])).

Definition validateKEDAMetricBackends (backend : string) : outcome (option error) :=
  if slices_Contains constants.AutoscalerAllowedKEDAMetricBackendList backend
  then Returns None
  else Returns (Some (fmt_Errorf
         (Literal "[%s] is not a supported metric backend in KEDA.\n") [backend])).

(** Validate of autoscaler HPA metrics *)
Definition validateHPAMetrics (metric : string) : outcome (option error) :=
  if slices_Contains constants.AutoscalerAllowedHPAMetricsList metric
  then Returns None
  else Returns (Some (fmt_Errorf (Literal "[%s] is not a supported metric") [metric])).

(** The loop over [componentExtensionSpec.AutoScaling.Metrics] in the KEDA
    case.  Every case of the switch in its body returns, so the body runs for
    the first entry only; [None] is the loop ending without a return. *)
Definition validateInferenceServiceAutoscaler_metrics
    (class : string) (metrics : list MetricsSpec.t)
  : option (outcome (option error)) :=
  match metrics with
  | [] => None
  | autoScaling :: _ =>
      let autoScalingType := MetricsSpec.Type_ autoScaling in
      Some
        (if bool_decide (autoScalingType = constants.AutoScalerResource) then
           deref (MetricsSpec.Resource autoScaling) (fun resource =>
             let resourceName := ResourceMetricSource.Name resource in
             deref resourceName validateKEDAMetrics)
         else if bool_decide (autoScalingType = constants.AutoScalerExternal) then
           deref (MetricsSpec.External autoScaling) (fun external =>
             let metricBackend :=
               ExternalMetrics.Backend (ExternalMetricSource.Metric external) in
             deref metricBackend validateKEDAMetricBackends)
         else
           Returns (Some (fmt_Errorf
             (Literal ("unknown auto scaling type class [%s] with value [%s]." ++
                       "Valid types are Resource and External"))
             [class; autoScalingType])))
  end.

(** The [switch class] inside the loop over the allowed classes; [None] is
    control leaving the switch without a return. *)
Definition validateInferenceServiceAutoscaler_switch
    (isvc : InferenceService.t) (annotations : gmap string string) (class : string)
  : option (outcome (option error)) :=
  if bool_decide (class = constants.AutoscalerClassHPA) then
    match annotations !! constants.AutoscalerMetrics with
    | Some metric => Some (validateHPAMetrics metric)
    | None => Some (Returns None)
    end
  else if bool_decide (class = constants.AutoscalerClassKeda) then
    let componentExtensionSpec :=
      PredictorSpec.ComponentExtensionSpec
        (InferenceServiceSpec.Predictor (InferenceService.Spec isvc)) in
    match ComponentExtensionSpec.ScaleMetric componentExtensionSpec,
          ComponentExtensionSpec.AutoScaling componentExtensionSpec with
    | Some _, Some _ =>
        (* checks for conflicts between ScaleMetric and AutoScaling configurations *)
        Some (Returns (Some (errors_New
          ("There is a conflicts between ScaleMetric and AutoScaling." ++
           "Please use AutoScaling if you want to use KEDA"))))
    | Some metric, None => Some (validateKEDAMetrics metric)
    | None, Some autoScaling =>
        validateInferenceServiceAutoscaler_metrics class
          (AutoScalingSpec.Metrics autoScaling)
    | None, None => None
    end
  else if bool_decide (class = constants.AutoscalerClassExternal) then
    Some (Returns None)
  else
    Some (Returns (Some (fmt_Errorf (Literal "unknown autoscaler class [%s]") [class]))).

(** The loop over [constants.AutoscalerAllowedClassList] and the return that
    follows it. *)
Fixpoint validateInferenceServiceAutoscaler_loop
    (isvc : InferenceService.t) (annotations : gmap string string)
    (value : string) (items : list string) : outcome (option error) :=
  match items with
  | [] =>
      Returns (Some (fmt_Errorf
        (Literal "[%s] is not a supported autoscaler class type") [value]))
  | item :: rest =>
      if bool_decide (value = item) then
        match validateInferenceServiceAutoscaler_switch isvc annotations value with
        | Some r => r
        | None => validateInferenceServiceAutoscaler_loop isvc annotations value rest
        end
      else validateInferenceServiceAutoscaler_loop isvc annotations value rest
  end.

(** Validation of isvc autoscaler class *)
Definition validateInferenceServiceAutoscaler (isvc : InferenceService.t)
  : outcome (option error) :=
  let annotations := InferenceService.Annotations isvc in
  match annotations !! constants.AutoscalerClass with
  | Some value =>
      validateInferenceServiceAutoscaler_loop isvc annotations value
        constants.AutoscalerAllowedClassList
  | None => Returns None
  end.

(** Validate of autoscaler targetUtilizationPercentage *)
Definition validateAutoscalerTargetUtilizationPercentage (isvc : InferenceService.t)
  : outcome (option error) :=
  let annotations := InferenceService.Annotations isvc in
  match annotations !! constants.TargetUtilizationPercentage with
  | Some value =>
      match strconv_Atoi value with
      | None =>
          Returns (Some (errors_New
            "the target utilization percentage should be a [1-100] integer"))
      | Some t =>
          if (t <? 1) || (t >? 100)
          then Returns (Some (errors_New
                 "the target utilization percentage should be a [1-100] integer"))
          else Returns None
      end
  | None => Returns None
  end.

Definition validateScalingHPACompExtension (compExtSpec : ComponentExtensionSpec.t)
  : outcome (option error) :=
  let metric :=
    match ComponentExtensionSpec.ScaleMetric compExtSpec with
    | Some m => m
    | None => constants.MetricCPU
    end in
  do! validateHPAMetrics metric;!
  match ComponentExtensionSpec.ScaleTarget compExtSpec with
  | Some target =>
      if (bool_decide (metric = constants.MetricCPU) && (target <? 1)) || (target >? 100)
      then Returns (Some (errors_New
             "the target utilization percentage should be a [1-100] integer"))
      else if bool_decide (metric = constants.MetricMemory) && (target <? 1)
      then Returns (Some (errors_New "the target memory should be greater than 1 MiB"))
      else Returns None
  | None => Returns None
  end.

(** The loop over [compExtSpec.AutoScaling.Metrics] of the KEDA evaluator. *)
Fixpoint validateScalingKedaCompExtension_metrics (metrics : list MetricsSpec.t)
  : outcome (option error) :=
  match metrics with
  | [] => Returns None
  | autoScaling :: rest =>
      if bool_decide (MetricsSpec.Type_ autoScaling = constants.AutoScalerResource) then
        deref (MetricsSpec.Resource autoScaling) (fun resource =>
        let target := ResourceMetricSource.Target resource in
        deref (ResourceMetricSource.Name resource) (fun resourceName =>
        deref (MetricTarget.AverageUtilization target) (fun averageUtilization =>
          if (bool_decide (resourceName = constants.MetricCPU) && (averageUtilization <? 1))
             || (averageUtilization >? 100)
          then Returns (Some (errors_New
                 "the target utilization percentage should be a [1-100] intege"))
          else if bool_decide (resourceName = constants.MetricMemory) then
            deref (MetricTarget.AverageValue target) (fun averageValue =>
              if bool_decide (averageValue < Quantity_1Mi)%Qc
              then Returns (Some (errors_New
                     "the target memory should be greater than 1 MiB"))
              else validateScalingKedaCompExtension_metrics rest)
          else validateScalingKedaCompExtension_metrics rest)))
      else if bool_decide (MetricsSpec.Type_ autoScaling = constants.AutoScalerExternal) then
        deref (MetricsSpec.External autoScaling) (fun external =>
          if bool_decide
               (ExternalMetrics.Query (ExternalMetricSource.Metric external) = "")
          then Returns (Some (errors_New "the query should not be empty"))
          else
            match MetricTarget.Value (ExternalMetricSource.Target external) with
            | None => Returns (Some (errors_New "the Thresold value should not be empty"))
            | Some _ => validateScalingKedaCompExtension_metrics rest
            end)
      else validateScalingKedaCompExtension_metrics rest
  end.

Definition validateScalingKedaCompExtension (compExtSpec : ComponentExtensionSpec.t)
  : outcome (option error) :=
  let metric :=
    match ComponentExtensionSpec.ScaleMetric compExtSpec with
    | Some m => m
    | None => constants.MetricCPU
    end in
  do! match ComponentExtensionSpec.ScaleTarget compExtSpec with
      | Some target =>
          if (bool_decide (metric = constants.MetricCPU) && (target <? 1))
             || (target >? 100)
          then Returns (Some (errors_New
                 "the target utilization percentage should be a [1-100] integer"))
          else if bool_decide (metric = constants.MetricMemory) && (target <? 1)
          then Returns (Some (errors_New
                 "the target memory should be greater than 1 MiB"))
          else Returns None
      | None => Returns None
      end;!
  match ComponentExtensionSpec.AutoScaling compExtSpec with
  | Some autoScaling =>
      validateScalingKedaCompExtension_metrics (AutoScalingSpec.Metrics autoScaling)
  | None => Returns None
  end.

Fixpoint validateKPAMetrics_loop (metric : string) (items : list string)
  : outcome (option error) :=
  match items with
  | [] => Returns (Some (fmt_Errorf (Literal "[%s] is not a supported metric") [metric]))
  | item :: rest =>
      if bool_decide (item = metric) then Returns None
      else validateKPAMetrics_loop metric rest
  end.

Definition validateKPAMetrics (metric : string) : outcome (option error) :=
  validateKPAMetrics_loop metric constants.AutoScalerKPAMetricsAllowedList.

Definition validateScalingKPACompExtension (compExtSpec : ComponentExtensionSpec.t)
  : outcome (option error) :=
  match ComponentExtensionSpec.DeploymentStrategy compExtSpec with
  | Some _ =>
      Returns (Some (errors_New
        "customizing deploymentStrategy is only supported for raw deployment mode"))
  | None =>
      let metric :=
        match ComponentExtensionSpec.ScaleMetric compExtSpec with
        | Some m => m
        | None => constants.MetricConcurrency
        end in
      do! validateKPAMetrics metric;!
      match ComponentExtensionSpec.ScaleTarget compExtSpec with
      | Some target =>
          if bool_decide (metric = constants.MetricRPS) && (target <? 1)
          then Returns (Some (errors_New "the target for rps should be greater than 1"))
          else Returns None
      | None => Returns None
      end
  end.

(** The conditions of the first and of the second case of the switch in
    [validateAutoScalingCompExtension], each over the three annotations read
    at its top. *)
Definition hpaCase (deploymentMode annotationClass : string) : bool :=
  bool_decide (deploymentMode = constants.RawDeployment)
  || bool_decide (annotationClass = autoscaling.HPA).

Definition kedaCase (deploymentMode autoscalerClass : string) : bool :=
  bool_decide (deploymentMode = constants.RawDeployment)
  || bool_decide (autoscalerClass = constants.AutoscalerClassKeda).

(** The per-component bounds evaluators the switch chooses between. *)
Inductive ScalingEvaluator := HPAEvaluator | KedaEvaluator | KPAEvaluator.

Definition runScalingEvaluator (ev : ScalingEvaluator)
    (compExtSpec : ComponentExtensionSpec.t) : outcome (option error) :=
  match ev with
  | HPAEvaluator => validateScalingHPACompExtension compExtSpec
  | KedaEvaluator => validateScalingKedaCompExtension compExtSpec
  | KPAEvaluator => validateScalingKPACompExtension compExtSpec
  end.

(** The switch of [validateAutoScalingCompExtension]: its cases are tried in
    order. *)
Definition selectScalingEvaluator (annotations : gmap string string)
  : ScalingEvaluator :=
  let deploymentMode := index annotations "serving.kserve.io/deploymentMode" in
  let annotationClass := index annotations autoscaling.ClassAnnotationKey in
  let autoscalerClass := index annotations constants.AutoscalerClass in
  if hpaCase deploymentMode annotationClass then HPAEvaluator
  else if kedaCase deploymentMode autoscalerClass then KedaEvaluator
  else KPAEvaluator.

(** Validate scaling options component extensions *)
Definition validateAutoScalingCompExtension (annotations : gmap string string)
    (compExtSpec : ComponentExtensionSpec.t) : outcome (option error) :=
  runScalingEvaluator (selectScalingEvaluator annotations) compExtSpec.

(** [if isUnknownGPUType, err := utils.IsUnknownGpuResourceType(..); err != nil
    { return err } else if isUnknownGPUType { return fmt.Errorf(..) }],
    followed by [k]. *)
Definition checkGPUType (isvc : InferenceService.t)
    (resources : ResourceRequirements.t) (k : outcome (option error))
  : outcome (option error) :=
  match utils.IsUnknownGpuResourceType resources (InferenceService.Annotations isvc) with
  | (_, Some err) => Returns (Some err)
  | (true, None) =>
      Returns (Some (fmt_Errorf InvalidUnknownGPUTypeError [InferenceService.Name isvc]))
  | (false, None) => k
  end.

(** The loop over [isvc.Spec.Predictor.WorkerSpec.Containers]. *)
Fixpoint validateMultiNodeVariables_containers (isvc : InferenceService.t)
    (containers : list Container.t) : outcome (option error) :=
  match containers with
  | [] => Returns None
  | container :: rest =>
      checkGPUType isvc (Container.Resources container)
        (validateMultiNodeVariables_containers isvc rest)
  end.

(** The block guarded by [isvc.Spec.Predictor.Model != nil]. *)
Definition validateMultiNodeVariables_model (isvc : InferenceService.t)
    (model : ModelSpec.t) : outcome (option error) :=
  let name := InferenceService.Name isvc in
  let env := Container.Env (ModelSpec.Container model) in
  if snd (utils.GetEnvVarValue env constants.PipelineParallelSizeEnvName)
  then Returns (Some (fmt_Errorf DisallowedWorkerSpecPipelineParallelSizeEnvError [name]))
  else if snd (utils.GetEnvVarValue env constants.TensorParallelSizeEnvName)
  then Returns (Some (fmt_Errorf DisallowedWorkerSpecTensorParallelSizeEnvError [name]))
  else
    checkGPUType isvc (Container.Resources (ModelSpec.Container model))
      match ModelSpec.StorageURI model with
      | None => Returns (Some (fmt_Errorf MissingStorageURI [name]))
      | Some uri =>
          match strings_Split uri "://" with
          | [] => Panics (* index out of range *)
          | storageProtocol :: _ =>
              if negb (bool_decide (storageProtocol = "pvc"))
              then Returns (Some (fmt_Errorf InvalidNotSupportedStorageURIProtocolError
                                    [name; storageProtocol]))
              else
                let class :=
                  index (InferenceService.Annotations isvc) constants.AutoscalerClass in
                if negb (bool_decide (class = constants.AutoscalerClassExternal))
                then Returns (Some (fmt_Errorf InvalidAutoScalerError [name; class]))
                else Returns None
          end
      end.

(** validateMultiNodeVariables validates when there is workerSpec set in isvc *)
Definition validateMultiNodeVariables (isvc : InferenceService.t)
  : outcome (option error) :=
  let name := InferenceService.Name isvc in
  let predictor := InferenceServiceSpec.Predictor (InferenceService.Spec isvc) in
  match PredictorSpec.WorkerSpec predictor with
  | Some workerSpec =>
      if (1 <? length (WorkerSpec.Containers workerSpec))%nat
      then Returns (Some (fmt_Errorf DisallowedMultipleContainersInWorkerSpecError [name]))
      else
        do! match PredictorSpec.Model predictor with
            | Some model => validateMultiNodeVariables_model isvc model
            | None => Returns None
            end;!
        (* WorkerSpec.PipelineParallelSize should not be less than 2 (head + worker) *)
        do! match WorkerSpec.PipelineParallelSize workerSpec with
            | Some pps =>
                if pps <? 2
                then Returns (Some (fmt_Errorf
                       InvalidWorkerSpecPipelineParallelSizeValueError
                       [name; strconv_Itoa pps]))
                else Returns None
            | None => Returns None
            end;!
        (* WorkerSpec.TensorParallelSize should not be less than 1. *)
        do! match WorkerSpec.TensorParallelSize workerSpec with
            | Some tps =>
                if tps <? 1
                then Returns (Some (fmt_Errorf
                       InvalidWorkerSpecTensorParallelSizeValueError
                       [name; strconv_Itoa tps]))
                else Returns None
            | None => Returns None
            end;!
        validateMultiNodeVariables_containers isvc (WorkerSpec.Containers workerSpec)
  | None => Returns None
  end.

(** The loop over [container.Env]; falling out of it reaches the [break]. *)
Fixpoint validateCollocationStorageURI_env (env : list EnvVar.t)
  : outcome (option error) :=
  match env with
  | [] => Returns None
  | e :: rest =>
      if bool_decide (EnvVar.Name e = constants.CustomSpecStorageUriEnvVarKey)
      then Returns (Some (errors_New StorageUriPresentInTransformerError))
      else validateCollocationStorageURI_env rest
  end.

(** The loop over [predictorSpec.Containers]. *)
Fixpoint validateCollocationStorageURI_containers (containers : list Container.t)
  : outcome (option error) :=
  match containers with
  | [] => Returns None
  | container :: rest =>
      if bool_decide (Container.Name container = constants.TransformerContainerName)
      then validateCollocationStorageURI_env (Container.Env container)
      else validateCollocationStorageURI_containers rest
  end.

(** validates if transformer container has storage uri or not in collocation
    of predictor and transformer scenario *)
Definition validateCollocationStorageURI (predictorSpec : PredictorSpec.t)
  : outcome (option error) :=
  validateCollocationStorageURI_containers (PredictorSpec.Containers predictorSpec).

(** Modelled from the spec: [validateExactlyOneImplementation], declared
    outside the validated file.  Exactly one implementation variant must be
    populated; zero or several is a rejection naming the component. *)
Definition validateExactlyOneImplementation (component : Component.t)
  : outcome (option error) :=
  if negb (length (Component.GetImplementations component) =? 1)%nat
  then Returns (Some (fmt_Errorf ExactlyOneErrorFormat [Component.TypeName component]))
  else Returns None.

(** Modelled from the spec: [GetImplementation()], the implementation chosen
    for the component, that is the first populated variant. *)
Definition GetImplementation (component : Component.t)
  : option ComponentImplementation.t :=
  head (Component.GetImplementations component).

(** The body of the loop over the three component slots, for a non-nil
    component.  The three arguments of [utils.FirstNonNilError] are all
    evaluated before it is called. *)
Definition validateInferenceService_component (annotations : gmap string string)
    (component : Component.t) : outcome (option error) :=
  do! validateExactlyOneImplementation component;!
  deref (GetImplementation component) (fun implementation =>
    let e1 := ComponentImplementation.Validate implementation in
    let e2 := utils.ComponentExtensionSpec_Validate (Component.GetExtensions component) in
    match validateAutoScalingCompExtension annotations
            (Component.GetExtensions component) with
    | Returns e3 => Returns (utils.FirstNonNilError [e1; e2; e3])
    | Panics => Panics
    end).

(** The loop over the slots; a nil slot is skipped. *)
Fixpoint validateInferenceService_components (annotations : gmap string string)
    (components : list (option Component.t)) : outcome (option error) :=
  match components with
  | [] => Returns None
  | None :: rest => validateInferenceService_components annotations rest
  | Some component :: rest =>
      do! validateInferenceService_component annotations component;!
      validateInferenceService_components annotations rest
  end.

(** The slice [[]Component{&isvc.Spec.Predictor, isvc.Spec.Transformer,
    isvc.Spec.Explainer}]. *)
Definition components_of (isvc : InferenceService.t) : list (option Component.t) :=
  let spec := InferenceService.Spec isvc in
  [ Some (Component_of_Predictor (InferenceServiceSpec.Predictor spec));
    Component_of_Transformer <$> InferenceServiceSpec.Transformer spec;
    Component_of_Explainer <$> InferenceServiceSpec.Explainer spec ].

(** The sequence of rules, as an error. *)
Definition validateInferenceService_rules (isvc : InferenceService.t)
  : outcome (option error) :=
  let annotations := InferenceService.Annotations isvc in
  do! validateInferenceServiceName isvc;!
  do! validateInferenceServiceAutoscaler isvc;!
  do! validateAutoscalerTargetUtilizationPercentage isvc;!
  do! validateMultiNodeVariables isvc;!
  do! validateCollocationStorageURI
        (InferenceServiceSpec.Predictor (InferenceService.Spec isvc));!
  validateInferenceService_components annotations (components_of isvc).

(** [validateInferenceService]: every return pairs [allWarnings], which is
    never appended to, with the error. *)
Definition validateInferenceService (isvc : InferenceService.t)
  : outcome (list string * option error) :=
  let allWarnings : list string := [] in
  match validateInferenceService_rules isvc with
  | Returns err => Returns (allWarnings, err)
  | Panics => Panics
  end.

End Validation.

(** ** Vocabulary of the properties *)

Definition is_lower (c : ascii) : bool :=
  ((97 <=? N_of_ascii c) && (N_of_ascii c <=? 122))%N.

Definition is_digit (c : ascii) : bool :=
  ((48 <=? N_of_ascii c) && (N_of_ascii c <=? 57))%N.

Definition is_hyphen (c : ascii) : bool := (N_of_ascii c =? 45)%N.

Definition is_alnum (c : ascii) : bool := is_lower c || is_digit c.

Definition is_label_char (c : ascii) : bool := is_hyphen c || is_lower c || is_digit c.

Fixpoint string_forall (p : ascii -> bool) (s : string) : bool :=
  match s with
  | EmptyString => true
  | String c s' => p c && string_forall p s'
  end.

(** A name of the grammar [[a-z]([-a-z0-9]*[a-z0-9])?]: a lower-case letter,
    then either nothing, or lower-case letters, digits and hyphens of which
    the last one is not a hyphen. *)
Definition DNSLabel (name : string) : Prop :=
  exists c rest,
    name = String c rest /\ is_lower c = true /\
    (rest = "" \/
     exists mid l,
       rest = mid ++ String l "" /\
       string_forall is_label_char mid = true /\ is_alnum l = true).

(** [strings.Split(uri, "://")[0]]: the text before the first ["://"], the
    whole of [uri] when it has none. *)
Definition storageProtocol (uri : string) : string :=
  List.hd "" (strings_Split uri "://").

Definition collocationError : error := errors_New StorageUriPresentInTransformerError.

Definition kedaConflictError : error :=
  errors_New ("There is a conflicts between ScaleMetric and AutoScaling." ++
              "Please use AutoScaling if you want to use KEDA").

Definition unsupportedClassError (value : string) : error :=
  fmt_Errorf (Literal "[%s] is not a supported autoscaler class type") [value].

Definition percentageError : error :=
  errors_New "the target utilization percentage should be a [1-100] integer".

Section Vocabulary.
Context `{K : constants.t} `{U : utils.t}.

Definition isTransformer (c : Container.t) : Prop :=
  Container.Name c = constants.TransformerContainerName.

Definition declaresStorageUri (c : Container.t) : Prop :=
  exists e, e ∈ Container.Env c /\ EnvVar.Name e = constants.CustomSpecStorageUriEnvVarKey.

Definition predictorOf (isvc : InferenceService.t) : PredictorSpec.t :=
  InferenceServiceSpec.Predictor (InferenceService.Spec isvc).

(** The storage URI of the built-in model of the predictor, if there is one. *)
Definition modelStorageURI (isvc : InferenceService.t) : option string :=
  match PredictorSpec.Model (predictorOf isvc) with
  | Some model => ModelSpec.StorageURI model
  | None => None
  end.

Definition predictorExtensions (isvc : InferenceService.t) : ComponentExtensionSpec.t :=
  PredictorSpec.ComponentExtensionSpec
    (InferenceServiceSpec.Predictor (InferenceService.Spec isvc)).

Definition atMostOneContainer (workerSpec : WorkerSpec.t) : Prop :=
  (length (WorkerSpec.Containers workerSpec) <= 1)%nat.

Definition pipelineParallelSizeOK (workerSpec : WorkerSpec.t) : Prop :=
  forall pps, WorkerSpec.PipelineParallelSize workerSpec = Some pps -> 2 <= pps.

Definition tensorParallelSizeOK (workerSpec : WorkerSpec.t) : Prop :=
  forall tps, WorkerSpec.TensorParallelSize workerSpec = Some tps -> 1 <= tps.

Definition gpuTypeKnown (isvc : InferenceService.t) (resources : ResourceRequirements.t)
  : Prop :=
  utils.IsUnknownGpuResourceType resources (InferenceService.Annotations isvc)
  = (false, None).

Definition noParallelismEnv (model : ModelSpec.t) : Prop :=
  let env := Container.Env (ModelSpec.Container model) in
  snd (utils.GetEnvVarValue env constants.PipelineParallelSizeEnvName) = false
  /\ snd (utils.GetEnvVarValue env constants.TensorParallelSizeEnvName) = false.

Definition exactlyOneError (component : Component.t) : error :=
  fmt_Errorf ExactlyOneErrorFormat [Component.TypeName component].

(** The rules that run before the loop over the components all pass. *)
Definition earlierRulesPass (isvc : InferenceService.t) : Prop :=
  validateInferenceServiceName isvc = Returns None
  /\ validateInferenceServiceAutoscaler isvc = Returns None
  /\ validateAutoscalerTargetUtilizationPercentage isvc = Returns None
  /\ validateMultiNodeVariables isvc = Returns None
  /\ validateCollocationStorageURI
       (InferenceServiceSpec.Predictor (InferenceService.Spec isvc)) = Returns None.

(** The rules of the loop other than the count of implementations pass for
    the component. *)
Definition componentRulesPass (annotations : gmap string string)
    (component : Component.t) : Prop :=
  (forall implementation, implementation ∈ Component.GetImplementations component ->
     ComponentImplementation.Validate implementation = None)
  /\ utils.ComponentExtensionSpec_Validate (Component.GetExtensions component) = None
  /\ validateAutoScalingCompExtension annotations (Component.GetExtensions component)
     = Returns None.

Definition hpaMetric (compExtSpec : ComponentExtensionSpec.t) : string :=
  match ComponentExtensionSpec.ScaleMetric compExtSpec with
  | Some m => m
  | None => constants.MetricCPU
  end.

End Vocabulary.

(** ** Fixtures *)

(** Modelled from the spec: a table of the constants, with the allow-list
    [{HPA, KEDA, KPA, External}], CPU and Memory as the metrics of HPA and
    KEDA, and Concurrency and RPS as the metrics of KPA. *)
#[export] Instance kserveConstants : constants.t := {|
  constants.AutoscalerClass := "serving.kserve.io/autoscalerClass";
  constants.AutoscalerMetrics := "serving.kserve.io/metrics";
  constants.TargetUtilizationPercentage := "serving.kserve.io/targetUtilizationPercentage";
  constants.AutoscalerClassHPA := "hpa";
  constants.AutoscalerClassKeda := "keda";
  constants.AutoscalerClassExternal := "external";
  constants.AutoscalerAllowedClassList := ["hpa"; "keda"; "kpa"; "external"];
  constants.AutoscalerAllowedHPAMetricsList := ["cpu"; "memory"];
  constants.AutoscalerAllowedKEDAMetricsList := ["cpu"; "memory"];
  constants.AutoscalerAllowedKEDAMetricBackendList :=
    ["prometheus"; "graphite"; "opentelemetry"];
  constants.AutoScalerKPAMetricsAllowedList := ["concurrency"; "rps"];
  constants.AutoScalerResource := "Resource";
  constants.AutoScalerExternal := "External";
  constants.RawDeployment := "RawDeployment";
  constants.PipelineParallelSizeEnvName := "PIPELINE_PARALLEL_SIZE";
  constants.TensorParallelSizeEnvName := "TENSOR_PARALLEL_SIZE";
  constants.TransformerContainerName := "transformer-container";
  constants.CustomSpecStorageUriEnvVarKey := "STORAGE_URI";
  constants.MetricCPU := "cpu";
  constants.MetricMemory := "memory";
  constants.MetricConcurrency := "concurrency";
  constants.MetricRPS := "rps"
|}.

(** Collaborators that find nothing wrong: every GPU resource type is known
    and the remaining extension fields are valid. *)
#[export] Instance fakeUtils : utils.t := {|
  utils.IsUnknownGpuResourceType := fun _ _ => (false, None);
  utils.ComponentExtensionSpec_Validate := fun _ => None
|}.

Definition noResources : ResourceRequirements.t := ResourceRequirements.mk ∅ ∅.

Definition noExtensions : ComponentExtensionSpec.t :=
  ComponentExtensionSpec.mk None None None None.

Definition validImplementation : ComponentImplementation.t :=
  ComponentImplementation.mk None.

Definition transformerWithoutStorageUri : Container.t :=
  Container.mk "transformer-container" [] noResources.

Definition transformerWithStorageUri : Container.t :=
  Container.mk "transformer-container"
    [EnvVar.mk "STORAGE_URI" "s3://bucket/model"] noResources.

Definition twoTransformers : PredictorSpec.t :=
  PredictorSpec.mk None None
    [transformerWithoutStorageUri; transformerWithStorageUri]
    noExtensions [validImplementation].

(** A custom-container predictor with one worker: no built-in model, hence no
    model storage URI, and the HPA autoscaler class. *)
Definition customContainerMultiNode : InferenceService.t :=
  InferenceService.mk "llm"
    {[ "serving.kserve.io/autoscalerClass" := "hpa" ]}
    (InferenceServiceSpec.mk
       (PredictorSpec.mk None
          (Some (WorkerSpec.mk [Container.mk "worker-container" [] noResources]
                   (Some 2) (Some 1)))
          [Container.mk "kserve-container" [] noResources]
          noExtensions [validImplementation])
       None None).

Definition s3Model : ModelSpec.t :=
  ModelSpec.mk (Some "s3://bucket/model") (Container.mk "kserve-container" [] noResources).

(** A built-in model fetched from [s3], with one worker. *)
Definition s3MultiNode : InferenceService.t :=
  InferenceService.mk "llm"
    {[ "serving.kserve.io/autoscalerClass" := "external" ]}
    (InferenceServiceSpec.mk
       (PredictorSpec.mk (Some s3Model)
          (Some (WorkerSpec.mk [Container.mk "worker-container" [] noResources]
                   (Some 2) (Some 1)))
          [] noExtensions [validImplementation])
       None None).

(** The same model with two worker containers. *)
Definition s3TwoWorkers : InferenceService.t :=
  InferenceService.mk "llm"
    {[ "serving.kserve.io/autoscalerClass" := "external" ]}
    (InferenceServiceSpec.mk
       (PredictorSpec.mk (Some s3Model)
          (Some (WorkerSpec.mk [Container.mk "worker-container" [] noResources;
                                Container.mk "worker-container-2" [] noResources]
                   (Some 2) (Some 1)))
          [] noExtensions [validImplementation])
       None None).

Definition conflictingExtensions : ComponentExtensionSpec.t :=
  ComponentExtensionSpec.mk (Some 50) (Some "cpu") (Some (AutoScalingSpec.mk [])) None.

Definition cpuExtensions : ComponentExtensionSpec.t :=
  ComponentExtensionSpec.mk None (Some "cpu") None None.

Definition kedaAnnotations : gmap string string :=
  {[ "serving.kserve.io/autoscalerClass" := "keda" ]}.

(** The predictor declares both settings. *)
Definition kedaPredictorConflict : InferenceService.t :=
  InferenceService.mk "sklearn-iris" kedaAnnotations
    (InferenceServiceSpec.mk
       (PredictorSpec.mk None None [] conflictingExtensions [validImplementation])
       None None).

(** The transformer declares both settings, the predictor only a metric. *)
Definition kedaTransformerConflict : InferenceService.t :=
  InferenceService.mk "sklearn-iris" kedaAnnotations
    (InferenceServiceSpec.mk
       (PredictorSpec.mk None None [] cpuExtensions [validImplementation])
       (Some (TransformerSpec.mk conflictingExtensions [validImplementation]))
       None).

(** A predictor with no implementation variant at all. *)
Definition noImplementation : InferenceService.t :=
  InferenceService.mk "sklearn-iris" ∅
    (InferenceServiceSpec.mk (PredictorSpec.mk None None [] noExtensions []) None None).

(** The KEDA class and nothing about scaling on the predictor. *)
Definition kedaNoScaling : InferenceService.t :=
  InferenceService.mk "sklearn-iris" kedaAnnotations
    (InferenceServiceSpec.mk
       (PredictorSpec.mk None None [] noExtensions [validImplementation])
       None None).

Definition resourceMetric (name : string) (averageUtilization : Z) : MetricsSpec.t :=
  MetricsSpec.mk "Resource"
    (Some (ResourceMetricSource.mk (Some name)
             (MetricTarget.mk None None (Some averageUtilization))))
    None.

Definition untypedMetric : MetricsSpec.t := MetricsSpec.mk "Pods" None None.

Definition kedaMetrics (metrics : list MetricsSpec.t) : InferenceService.t :=
  InferenceService.mk "sklearn-iris" kedaAnnotations
    (InferenceServiceSpec.mk
       (PredictorSpec.mk None None []
          (ComponentExtensionSpec.mk None None (Some (AutoScalingSpec.mk metrics)) None)
          [validImplementation])
       None None).

(** ** The webhook entry points *)

(** A [runtime.Object] handed to the validator: the nil interface, a pointer
    to an InferenceService (which may be a nil pointer), or a value of another
    type, of which the name that [%T] prints is kept. *)
Inductive runtime_Object :=
| NilObject
| InferenceServiceObject (p : option InferenceService.t)
| OtherObject (dynamicType : string).

(** What [validatorLogger] is given. *)
Inductive LogRecord :=
| log_Info (msg : string) (name : string)
| log_Error (err : error) (msg : string).

(** Convert runtime.Object into InferenceService *)
Definition convertToInferenceService (obj : runtime_Object)
  : option InferenceService.t * option error :=
  match obj with
  | InferenceServiceObject isvc => (isvc, None)
  | NilObject =>
      (None, Some (fmt_Errorf
         (Literal "expected an InferenceService object but got %T") ["<nil>"]))
  | OtherObject dynamicType =>
      (None, Some (fmt_Errorf
         (Literal "expected an InferenceService object but got %T") [dynamicType]))
  end.

Section Webhook.
Context `{K : constants.t} `{U : utils.t}.

(** ValidateCreate implements webhook.Validator so a webhook will be
    registered for the type.  The result is the records logged and what the
    call does; reading [isvc.Name] through a nil pointer panics before
    anything is logged. *)
Definition ValidateCreate (obj : runtime_Object)
  : list LogRecord * outcome (list string * option error) :=
  match convertToInferenceService obj with
  | (_, Some err) =>
      ([log_Error err "Unable to convert object to InferenceService"],
       Returns ([], Some err))
  | (None, None) => ([], Panics)
  | (Some isvc, None) =>
      ([log_Info "validate create" (InferenceService.Name isvc)],
       validateInferenceService isvc)
  end.

(** ValidateUpdate implements webhook.Validator so a webhook will be
    registered for the type *)
Definition ValidateUpdate (oldObj newObj : runtime_Object)
  : list LogRecord * outcome (list string * option error) :=
  match convertToInferenceService newObj with
  | (_, Some err) =>
      ([log_Error err "Unable to convert object to InferenceService"],
       Returns ([], Some err))
  | (None, None) => ([], Panics)
  | (Some isvc, None) =>
      ([log_Info "validate update" (InferenceService.Name isvc)],
       validateInferenceService isvc)
  end.

(** ValidateDelete implements webhook.Validator so a webhook will be
    registered for the type *)
Definition ValidateDelete (obj : runtime_Object)
  : list LogRecord * outcome (list string * option error) :=
  match convertToInferenceService obj with
  | (_, Some err) =>
      ([log_Error err "Unable to convert object to InferenceService"],
       Returns ([], Some err))
  | (None, None) => ([], Panics)
  | (Some isvc, None) =>
      ([log_Info "validate delete" (InferenceService.Name isvc)],
       Returns ([], None))
  end.

End Webhook.

(** ** Defaults of LLMInferenceService (package v1alpha1) *)

Module LLMModelSpec.
Record t := mk { Name : option string }.
End LLMModelSpec.

Module LLMInferenceServiceSpec.
Record t := mk { Model : LLMModelSpec.t }.
End LLMInferenceServiceSpec.

Module LLMInferenceService.
Record t := mk { Name : string; Spec : LLMInferenceServiceSpec.t }.

(** [in.GetName()] *)
Definition GetName (in_ : t) : string := Name in_.

(** [SetDefaults] writes through its receiver; the result is the receiver
    after the call. *)
Definition SetDefaults (in_ : t) : t :=
  let setName :=
    mk (Name in_) (LLMInferenceServiceSpec.mk (LLMModelSpec.mk (Some (GetName in_)))) in
  match LLMModelSpec.Name (LLMInferenceServiceSpec.Model (Spec in_)) with
  | None => setName
  | Some name => if bool_decide (name = "") then setName else in_
  end.
End LLMInferenceService.

(** ** Vocabulary of the further properties *)

(** The range of a 64-bit [int]. *)
Definition fits_int64 (v : Z) : bool := (- 2 ^ 63 <=? v) && (v <=? 2 ^ 63 - 1).

Section MoreVocabulary.
Context `{K : constants.t} `{U : utils.t}.

(** The metric a bounds evaluator works with when [scaleMetric] is unset. *)
Definition metricOr (fallback : string) (compExtSpec : ComponentExtensionSpec.t)
  : string :=
  match ComponentExtensionSpec.ScaleMetric compExtSpec with
  | Some m => m
  | None => fallback
  end.

(** The bounds the HPA and KEDA evaluators put on a set [scaleTarget]. *)
Definition targetWithinBounds (metric : string) (compExtSpec : ComponentExtensionSpec.t)
  : Prop :=
  forall target, ComponentExtensionSpec.ScaleTarget compExtSpec = Some target ->
    target <= 100
    /\ (metric = constants.MetricCPU \/ metric = constants.MetricMemory -> 1 <= target).


Definition isUntypedEntry (entry : MetricsSpec.t) : Prop :=
  MetricsSpec.Type_ entry <> constants.AutoScalerResource
  /\ MetricsSpec.Type_ entry <> constants.AutoScalerExternal.

(** No non-nil component declares [autoScaling]. *)
Definition noAutoScaling (isvc : InferenceService.t) : Prop :=
  forall c, Some c ∈ components_of isvc ->
    ComponentExtensionSpec.AutoScaling (Component.GetExtensions c) = None.

(** The storage URIs the multi-node storage check lets through. *)
Definition pvcURI (uri : string) : Prop :=
  uri = "pvc" \/ exists rest, uri = "pvc://" ++ rest.

End MoreVocabulary.

(** ** Further fixtures *)

Definition memoryAverageValueOnly : MetricsSpec.t :=
  MetricsSpec.mk "Resource"
    (Some (ResourceMetricSource.mk (Some "memory")
             (MetricTarget.mk None (Some (Q2Qc (inject_Z 2097152))) None)))
    None.


Definition pvcModel : ModelSpec.t :=
  ModelSpec.mk (Some "pvc://claim/model") (Container.mk "kserve-container" [] noResources).

(** A built-in model on a volume claim, one worker, the External class. *)
Definition pvcMultiNode : InferenceService.t :=
  InferenceService.mk "llm"
    {[ "serving.kserve.io/autoscalerClass" := "external" ]}
    (InferenceServiceSpec.mk
       (PredictorSpec.mk (Some pvcModel)
          (Some (WorkerSpec.mk [Container.mk "worker-container" [] noResources]
                   (Some 2) (Some 1)))
          [] noExtensions [validImplementation])
       None None).

(** Collaborators for which every GPU resource type is unknown. *)
Definition unknownGpuUtils : utils.t := {|
  utils.IsUnknownGpuResourceType := fun _ _ => (true, None);
  utils.ComponentExtensionSpec_Validate := fun _ => None
|}.

Definition validPredictor : PredictorSpec.t :=
  PredictorSpec.mk None None [] noExtensions [validImplementation].

(** A name outside the grammar and a predictor with no implementation. *)
Definition badNameNoImplementation : InferenceService.t :=
  InferenceService.mk "Bad_Name" ∅
    (InferenceServiceSpec.mk (PredictorSpec.mk None None [] noExtensions []) None None).

Definition nilResourceEntry : MetricsSpec.t := MetricsSpec.mk "Resource" None None.

(** The KEDA class, a predictor with no implementation, and a Resource entry
    whose resource is nil. *)
Definition nilResourceNoImplementation : InferenceService.t :=
  InferenceService.mk "sklearn-iris" kedaAnnotations
    (InferenceServiceSpec.mk
       (PredictorSpec.mk None None []
          (ComponentExtensionSpec.mk None None
             (Some (AutoScalingSpec.mk [nilResourceEntry])) None)
          [])
       None None).

(** A transformer with two implementation variants. *)
Definition twoVariantTransformer : InferenceService.t :=
  InferenceService.mk "sklearn-iris" ∅
    (InferenceServiceSpec.mk validPredictor
       (Some (TransformerSpec.mk noExtensions [validImplementation; validImplementation]))
       None).

(** An explainer with no implementation variant. *)
Definition noVariantExplainer : InferenceService.t :=
  InferenceService.mk "sklearn-iris" ∅
    (InferenceServiceSpec.mk validPredictor
       (Some (TransformerSpec.mk noExtensions [validImplementation]))
       (Some (ExplainerSpec.mk noExtensions []))).

(** The three components, each with one implementation. *)
Definition fullService : InferenceService.t :=
  InferenceService.mk "sklearn-iris" ∅
    (InferenceServiceSpec.mk validPredictor
       (Some (TransformerSpec.mk noExtensions [validImplementation]))
       (Some (ExplainerSpec.mk noExtensions [validImplementation]))).

Definition plainService (annotations : gmap string string) : InferenceService.t :=
  InferenceService.mk "sklearn-iris" annotations
    (InferenceServiceSpec.mk
       (PredictorSpec.mk None None [] noExtensions [validImplementation])
       None None).

(** ** Regular expression matching is membership in the language *)

Lemma append_eq_empty (s1 s2 : string) : s1 ++ s2 = "" -> s1 = "" /\ s2 = "".
Proof. destruct s1; simpl; [auto | discriminate]. Qed.

Lemma append_eq_String (s1 s2 : string) c s :
  s1 ++ s2 = String c s ->
  (s1 = "" /\ s2 = String c s) \/ (exists s1', s1 = String c s1' /\ s = s1' ++ s2).
Proof.
  destruct s1 as [|a s1]; simpl; intros H.
  - left; auto.
  - right. injection H as -> <-. eauto.
Qed.

Lemma in_lang_concat_inv r1 r2 s :
  in_lang (Concat r1 r2) s ->
  exists s1 s2, s = s1 ++ s2 /\ in_lang r1 s1 /\ in_lang r2 s2.
Proof. inversion 1; subst; eauto. Qed.

Lemma in_lang_alt_inv r1 r2 s :
  in_lang (Alternate r1 r2) s -> in_lang r1 s \/ in_lang r2 s.
Proof. inversion 1; subst; auto. Qed.

Lemma in_lang_class_inv rs s :
  in_lang (CharClass rs) s -> exists c, s = String c "" /\ in_class rs c = true.
Proof. inversion 1; subst; eauto. Qed.

Lemma in_lang_empty_inv s : in_lang EmptyMatch s -> s = "".
Proof. now inversion 1. Qed.

Lemma in_lang_concat_String r1 r2 c s1 s2 :
  in_lang r1 (String c s1) -> in_lang r2 s2 -> in_lang (Concat r1 r2) (String c (s1 ++ s2)).
Proof. intros H1 H2. now apply (in_lang_concat r1 r2 (String c s1) s2). Qed.

Lemma nullable_spec r : nullable r = true <-> in_lang r "".
Proof.
  induction r as [ | | rs | r1 IH1 r2 IH2 | r1 IH1 r2 IH2 | r IH]; simpl.
  - split; [discriminate | inversion 1].
  - split; [constructor | reflexivity].
  - split; [discriminate | inversion 1].
  - rewrite andb_true_iff, IH1, IH2. split.
    + intros [H1 H2]. now apply (in_lang_concat r1 r2 "" "").
    + intros H. apply in_lang_concat_inv in H as (s1 & s2 & Heq & H1 & H2).
      symmetry in Heq. apply append_eq_empty in Heq as [-> ->]. auto.
  - rewrite orb_true_iff, IH1, IH2. split.
    + intros [H | H]; [now apply in_lang_alt_l | now apply in_lang_alt_r].
    + apply in_lang_alt_inv.
  - split; [constructor | reflexivity].
Qed.

Lemma in_lang_star_String r c s :
  in_lang (Star r) (String c s) ->
  exists s1 s2, s = s1 ++ s2 /\ in_lang r (String c s1) /\ in_lang (Star r) s2.
Proof.
  intros H. remember (Star r) as r' eqn:Er. remember (String c s) as t eqn:Et.
  induction H as [ | | | | | | r0 s1 s2 H1 _ H2 IH2]; try discriminate.
  injection Er as ->.
  apply append_eq_String in Et as [[-> ->] | (s1' & -> & ->)].
  - now apply IH2.
  - eauto.
Qed.

Lemma derive_spec c r : forall s, in_lang (derive c r) s <-> in_lang r (String c s).
Proof.
  induction r as [ | | rs | r1 IH1 r2 IH2 | r1 IH1 r2 IH2 | r IH]; intros s; simpl.
  - split; inversion 1.
  - split; inversion 1.
  - destruct (in_class rs c) eqn:Hc; split; intros H.
    + apply in_lang_empty_inv in H as ->. now constructor.
    + apply in_lang_class_inv in H as (c' & [= -> ->] & _). constructor.
    + inversion H.
    + apply in_lang_class_inv in H as (c' & [= -> ->] & Hc'). congruence.
  - destruct (nullable r1) eqn:Hn; split; intros H.
    + apply in_lang_alt_inv in H as [H | H].
      * apply in_lang_concat_inv in H as (s1 & s2 & -> & H1 & H2).
        apply in_lang_concat_String; [now apply IH1 | assumption].
      * apply nullable_spec in Hn.
        apply (in_lang_concat r1 r2 "" (String c s)); [assumption | now apply IH2].
    + apply in_lang_concat_inv in H as (s1 & s2 & Heq & H1 & H2).
      symmetry in Heq.
      apply append_eq_String in Heq as [[-> ->] | (s1' & -> & ->)].
      * apply in_lang_alt_r. now apply IH2.
      * apply in_lang_alt_l. constructor; [now apply IH1 | assumption].
    + apply in_lang_concat_inv in H as (s1 & s2 & -> & H1 & H2).
      apply in_lang_concat_String; [now apply IH1 | assumption].
    + apply in_lang_concat_inv in H as (s1 & s2 & Heq & H1 & H2).
      symmetry in Heq.
      apply append_eq_String in Heq as [[-> ->] | (s1' & -> & ->)].
      * apply nullable_spec in H1. congruence.
      * constructor; [now apply IH1 | assumption].
  - split; intros H; apply in_lang_alt_inv in H as [H | H];
      solve [ apply in_lang_alt_l; now apply IH1 | apply in_lang_alt_r; now apply IH2 ].
  - split; intros H.
    + apply in_lang_concat_inv in H as (s1 & s2 & -> & H1 & H2).
      apply (in_lang_star_cons r (String c s1) s2); [now apply IH | assumption].
    + apply in_lang_star_String in H as (s1 & s2 & -> & H1 & H2).
      constructor; [now apply IH | assumption].
Qed.

Lemma MatchString_spec s : forall r, MatchString r s = true <-> in_lang r s.
Proof.
  induction s as [|c s IH]; intros r; simpl.
  - apply nullable_spec.
  - rewrite IH. apply derive_spec.
Qed.

(** ** The name grammar, spelled out *)

Ltac class_ranges :=
  unfold in_class, in_range, is_label_char, is_alnum, is_hyphen, is_lower, is_digit;
  cbn [existsb fst snd];
  change (N_of_ascii "-") with 45%N; change (N_of_ascii "a") with 97%N;
  change (N_of_ascii "z") with 122%N; change (N_of_ascii "0") with 48%N;
  change (N_of_ascii "9") with 57%N;
  match goal with |- context [N_of_ascii ?c] => generalize (N_of_ascii c) end;
  intros n;
  repeat match goal with
         | |- context [(?a <=? ?b)%N] => destruct (N.leb_spec a b)
         | |- context [(?a =? ?b)%N] => destruct (N.eqb_spec a b)
         end;
  simpl; try reflexivity; lia.

Lemma in_class_lower c : in_class [("a", "z")]%char c = is_lower c.
Proof. class_ranges. Qed.

Lemma in_class_alnum c : in_class [("a", "z"); ("0", "9")]%char c = is_alnum c.
Proof. class_ranges. Qed.

Lemma in_class_label_char c :
  in_class [("-", "-"); ("a", "z"); ("0", "9")]%char c = is_label_char c.
Proof. class_ranges. Qed.

Lemma in_lang_star_class rs s :
  in_lang (Star (CharClass rs)) s <-> string_forall (in_class rs) s = true.
Proof.
  split.
  - intros H. remember (Star (CharClass rs)) as r eqn:Er.
    induction H as [ | | | | | | r0 s1 s2 H1 _ H2 IH2]; try discriminate.
    + reflexivity.
    + injection Er as ->.
      apply in_lang_class_inv in H1 as (c & -> & Hc). simpl.
      rewrite Hc. now apply IH2.
  - induction s as [|c s IH]; simpl.
    + constructor.
    + intros [Hc Hs]%andb_true_iff.
      apply (in_lang_star_cons _ (String c "") s); [now constructor | auto].
Qed.

Lemma string_forall_ext p q s :
  (forall c, p c = q c) -> string_forall p s = string_forall q s.
Proof. intros E. induction s as [|c s IH]; simpl; [reflexivity | now rewrite E, IH]. Qed.

Lemma IsvcRegexp_lang name : in_lang IsvcRegexp name <-> DNSLabel name.
Proof.
  unfold IsvcRegexp, Quest, DNSLabel. split.
  - intros H. apply in_lang_concat_inv in H as (s1 & s2 & -> & H1 & H2).
    apply in_lang_class_inv in H1 as (c & -> & Hc). rewrite in_class_lower in Hc.
    exists c, s2. split; [reflexivity | split; [assumption |]].
    apply in_lang_alt_inv in H2 as [H2 | H2].
    + right. apply in_lang_concat_inv in H2 as (mid & t & -> & Hmid & Ht).
      apply in_lang_class_inv in Ht as (l & -> & Hl). rewrite in_class_alnum in Hl.
      apply in_lang_star_class in Hmid.
      rewrite (string_forall_ext _ _ _ in_class_label_char) in Hmid. eauto.
    + left. now apply in_lang_empty_inv.
  - intros (c & rest & -> & Hc & Hrest).
    apply (in_lang_concat _ _ (String c "") rest).
    + constructor. now rewrite in_class_lower.
    + destruct Hrest as [-> | (mid & l & -> & Hmid & Hl)].
      * apply in_lang_alt_r. constructor.
      * apply in_lang_alt_l. constructor.
        -- apply in_lang_star_class.
           now rewrite (string_forall_ext _ _ _ in_class_label_char).
        -- constructor. now rewrite in_class_alnum.
Qed.

Lemma MatchString_IsvcRegexp name :
  MatchString IsvcRegexp name = true <-> DNSLabel name.
Proof. rewrite MatchString_spec. apply IsvcRegexp_lang. Qed.

(** The cases the naming rule is documented with. *)
Example MatchString_accepts :
  MatchString IsvcRegexp "my-name" = true /\ MatchString IsvcRegexp "abc-123" = true
  /\ MatchString IsvcRegexp "a" = true.
Proof. repeat split; reflexivity. Qed.

Example MatchString_rejects :
  MatchString IsvcRegexp "" = false /\ MatchString IsvcRegexp "MyName" = false
  /\ MatchString IsvcRegexp "1abc" = false /\ MatchString IsvcRegexp "abc-" = false.
Proof. repeat split; reflexivity. Qed.

Section NameRule.
Context `{K : constants.t} `{U : utils.t}.

(** C8: name validation returns no error exactly for the names of the grammar
    [[a-z]([-a-z0-9]*[a-z0-9])?], matched in full; for every other name it
    returns the name-format error, and so does the whole validation, whatever
    the rest of the resource holds, since the name is checked first. *)
Theorem validateInferenceServiceName_grammar (isvc : InferenceService.t) :
  let name := InferenceService.Name isvc in
  let err := fmt_Errorf InvalidISVCNameFormatError [name; IsvcNameFmt] in
  (validateInferenceServiceName isvc = Returns None <-> DNSLabel name)
  /\ (validateInferenceServiceName isvc = Returns (Some err) <-> ~ DNSLabel name)
  /\ (~ DNSLabel name -> validateInferenceService isvc = Returns ([], Some err)).
Proof.
  intros name err.
  assert (Hm := MatchString_IsvcRegexp name).
  unfold validateInferenceService, validateInferenceService_rules,
    validateInferenceServiceName.
  fold name. destruct (MatchString IsvcRegexp name); simpl.
  - split; [| split].
    + split; [intros _; now apply Hm | reflexivity].
    + split; [discriminate | intros Hn; destruct Hn; now apply Hm].
    + intros Hn. destruct Hn. now apply Hm.
  - assert (Hn : ~ DNSLabel name) by (intros Hd; apply Hm in Hd; discriminate).
    split; [| split].
    + split; [discriminate | intros Hd; now destruct Hn].
    + split; [intros _; exact Hn | reflexivity].
    + reflexivity.
Qed.

End NameRule.

(** ** Choice of the per-component bounds evaluator *)

Section EvaluatorChoice.
Context `{K : constants.t} `{U : utils.t}.

(** C7: when the deployment-mode annotation reads RawDeployment, the first
    case of the switch is taken: the evaluator is the HPA one and the
    component extension is validated by it, whatever the autoscaler-class
    annotation says.  The KEDA evaluator is only ever chosen when the
    deployment mode is not RawDeployment, so the raw-deployment disjunct of
    its case never decides. *)
Theorem raw_deployment_selects_HPA (annotations : gmap string string) :
  (index annotations "serving.kserve.io/deploymentMode" = constants.RawDeployment ->
   selectScalingEvaluator annotations = HPAEvaluator
   /\ forall compExtSpec,
        validateAutoScalingCompExtension annotations compExtSpec
        = validateScalingHPACompExtension compExtSpec)
  /\ (selectScalingEvaluator annotations = KedaEvaluator ->
      index annotations "serving.kserve.io/deploymentMode" <> constants.RawDeployment
      /\ index annotations constants.AutoscalerClass = constants.AutoscalerClassKeda).
Proof.
  unfold validateAutoScalingCompExtension, selectScalingEvaluator, hpaCase, kedaCase.
  split.
  - intros ->. rewrite bool_decide_eq_true_2 by reflexivity. simpl. auto.
  - case_bool_decide as Hraw; simpl; [discriminate |].
    case_bool_decide; simpl; [discriminate |].
    case_bool_decide as Hkeda; [auto | discriminate].
Qed.

End EvaluatorChoice.

(** A raw deployment that asks for KEDA is still bounded by the HPA rules. *)
Lemma raw_deployment_selects_HPA_witness :
  selectScalingEvaluator
    {[ "serving.kserve.io/deploymentMode" := "RawDeployment";
       "serving.kserve.io/autoscalerClass" := "keda" ]}
  = HPAEvaluator.
Proof.
  apply (proj1 (raw_deployment_selects_HPA
    {[ "serving.kserve.io/deploymentMode" := "RawDeployment";
       "serving.kserve.io/autoscalerClass" := "keda" ]})).
  vm_compute. reflexivity.
Defined.

(** ** Collocation of transformer and predictor *)

Section Collocation.
Context `{K : constants.t} `{U : utils.t}.

Lemma validateCollocationStorageURI_env_total env :
  validateCollocationStorageURI_env env = Returns None
  \/ validateCollocationStorageURI_env env = Returns (Some collocationError).
Proof.
  induction env as [|e env IH]; simpl; [auto |]. case_bool_decide; auto.
Qed.

Lemma validateCollocationStorageURI_env_spec env :
  validateCollocationStorageURI_env env = Returns (Some collocationError)
  <-> exists e, e ∈ env /\ EnvVar.Name e = constants.CustomSpecStorageUriEnvVarKey.
Proof.
  induction env as [|e env IH]; simpl.
  - split; [discriminate | intros (e & He & _); inversion He].
  - case_bool_decide as Hk.
    + split; [intros _; exists e; split; [left | assumption] | reflexivity].
    + rewrite IH. split.
      * intros (e' & He' & Hn). exists e'. split; [now right | assumption].
      * intros (e' & He' & Hn). inversion He'; subst; [contradiction | eauto].
Qed.

(** C9, as the code has it: the check fails, with the transformer-storage-URI
    error, exactly when the first container named with the transformer role
    declares the model-storage-URI key; it returns no error otherwise, in
    particular when no container with that name declares the key.  Containers
    with that name after the first one are not looked at. *)
Theorem validateCollocationStorageURI_first_transformer (predictorSpec : PredictorSpec.t) :
  let r := validateCollocationStorageURI predictorSpec in
  (r = Returns (Some collocationError)
   <-> exists pre c post,
         PredictorSpec.Containers predictorSpec = (pre ++ c :: post)%list
         /\ (forall c', c' ∈ pre -> ~ isTransformer c')
         /\ isTransformer c /\ declaresStorageUri c)
  /\ (r = Returns None \/ r = Returns (Some collocationError))
  /\ ((forall c, c ∈ PredictorSpec.Containers predictorSpec ->
         isTransformer c -> ~ declaresStorageUri c) ->
      r = Returns None).
Proof.
  unfold validateCollocationStorageURI. cbv zeta.
  generalize (PredictorSpec.Containers predictorSpec) as cs.
  assert (Hiff : forall cs,
    validateCollocationStorageURI_containers cs = Returns (Some collocationError)
    <-> exists pre c post, cs = (pre ++ c :: post)%list
          /\ (forall c', c' ∈ pre -> ~ isTransformer c')
          /\ isTransformer c /\ declaresStorageUri c).
  { induction cs as [|c cs IH]; simpl.
    - split; [discriminate |].
      intros (pre & c & post & Heq & _). destruct pre; discriminate.
    - case_bool_decide as Hn.
      + rewrite validateCollocationStorageURI_env_spec. split.
        * intros Hd. exists [], c, cs. repeat split; try assumption.
          intros c' Hc'. inversion Hc'.
        * intros (pre & c0 & post & Heq & Hpre & Hc0 & Hd).
          destruct pre as [|p pre]; simpl in Heq.
          -- injection Heq as <- <-. exact Hd.
          -- injection Heq as <- ->. destruct (Hpre c); [left | exact Hn].
      + rewrite IH. split.
        * intros (pre & c0 & post & -> & Hpre & Hc0 & Hd).
          exists (c :: pre), c0, post. repeat split; try assumption.
          intros c' Hc'. inversion Hc'; subst; [exact Hn | now apply Hpre].
        * intros (pre & c0 & post & Heq & Hpre & Hc0 & Hd).
          destruct pre as [|p pre]; simpl in Heq.
          -- injection Heq as <- <-. contradiction.
          -- injection Heq as <- ->. exists pre, c0, post.
             repeat split; try assumption.
             intros c' Hc'. apply Hpre. now right. }
  assert (Htot : forall cs,
    validateCollocationStorageURI_containers cs = Returns None
    \/ validateCollocationStorageURI_containers cs = Returns (Some collocationError)).
  { induction cs as [|c cs IH]; simpl; [auto |].
    case_bool_decide; [apply validateCollocationStorageURI_env_total | exact IH]. }
  intros cs. split; [apply Hiff | split; [apply Htot |]].
  intros Hnone. destruct (Htot cs) as [H | H]; [exact H |].
  apply Hiff in H as (pre & c & post & -> & _ & Hc & Hd).
  destruct (Hnone c); [| assumption | assumption].
  apply elem_of_app. right. left.
Qed.

End Collocation.

(** C9, as stated, fails: a container of the list is named with the
    transformer role and declares the storage-URI key, yet the check passes,
    because an earlier container carries the same name. *)
Lemma collocation_second_transformer_unchecked :
  (exists c, c ∈ PredictorSpec.Containers twoTransformers
             /\ isTransformer c /\ declaresStorageUri c)
  /\ validateCollocationStorageURI twoTransformers = Returns None.
Proof.
  split; [| reflexivity].
  exists transformerWithStorageUri. split; [right; left |].
  split; [reflexivity |].
  exists (EnvVar.mk "STORAGE_URI" "s3://bucket/model"). split; [left | reflexivity].
Qed.

(** ** Multi-node validation *)

Lemma Split_go_nonempty sep s : forall skip cur, Split_go sep skip cur s <> [].
Proof.
  induction s as [|c s IH]; intros skip cur; simpl; [discriminate |].
  destruct skip; [| apply IH].
  match goal with |- (if ?b then _ else _) <> _ => destruct b end;
    [discriminate | apply IH].
Qed.

Lemma strings_Split_storageProtocol uri :
  exists rest, strings_Split uri "://" = storageProtocol uri :: rest.
Proof.
  unfold storageProtocol, strings_Split.
  destruct (Split_go "://" 0 "" uri) as [|p rest] eqn:E.
  - now apply Split_go_nonempty in E.
  - now exists rest.
Qed.

Example storageProtocol_examples :
  storageProtocol "pvc://claim/model" = "pvc"
  /\ storageProtocol "s3://bucket/model" = "s3"
  /\ storageProtocol "/mnt/models" = "/mnt/models"
  /\ storageProtocol "pvc:/claim" = "pvc:/claim"
  /\ strings_Split "a://b://" "://" = ["a"; "b"; ""].
Proof. repeat split; reflexivity. Qed.

Section MultiNode.
Context `{K : constants.t} `{U : utils.t}.

Lemma validateMultiNodeVariables_containers_known isvc containers :
  (forall c, c ∈ containers -> gpuTypeKnown isvc (Container.Resources c)) ->
  validateMultiNodeVariables_containers isvc containers = Returns None.
Proof.
  induction containers as [|c cs IH]; simpl; intros Hk; [reflexivity |].
  unfold checkGPUType. rewrite (Hk c) by left. apply IH.
  intros c' Hc'. apply Hk. now right.
Qed.

Lemma validateMultiNodeVariables_model_rejected isvc model :
  ModelSpec.StorageURI model = None
  \/ (exists uri, ModelSpec.StorageURI model = Some uri /\ storageProtocol uri <> "pvc") ->
  rejected (validateMultiNodeVariables_model isvc model).
Proof.
  intros Huri. unfold validateMultiNodeVariables_model, checkGPUType, rejected.
  destruct (snd (utils.GetEnvVarValue _ constants.PipelineParallelSizeEnvName)); [eauto |].
  destruct (snd (utils.GetEnvVarValue _ constants.TensorParallelSizeEnvName)); [eauto |].
  destruct (utils.IsUnknownGpuResourceType _ _) as [[|] [err|]]; eauto.
  destruct Huri as [-> | (uri & -> & Hp)]; [eauto |].
  destruct (strings_Split_storageProtocol uri) as [rest ->].
  rewrite bool_decide_eq_false_2 by assumption. simpl. eauto.
Qed.

(** With a worker topology and no built-in model, the checks come in this
    order: the count of worker containers, the two parallel sizes, the loop
    over the worker containers. *)
Lemma validateMultiNodeVariables_without_model_order
    (isvc : InferenceService.t) (workerSpec : WorkerSpec.t) :
  PredictorSpec.WorkerSpec (predictorOf isvc) = Some workerSpec ->
  PredictorSpec.Model (predictorOf isvc) = None ->
  let name := InferenceService.Name isvc in
  let r := validateMultiNodeVariables isvc in
  (~ atMostOneContainer workerSpec ->
   r = Returns (Some (fmt_Errorf DisallowedMultipleContainersInWorkerSpecError [name])))
  /\ (atMostOneContainer workerSpec ->
      forall pps, WorkerSpec.PipelineParallelSize workerSpec = Some pps -> pps < 2 ->
      r = Returns (Some (fmt_Errorf InvalidWorkerSpecPipelineParallelSizeValueError
                           [name; strconv_Itoa pps])))
  /\ (atMostOneContainer workerSpec -> pipelineParallelSizeOK workerSpec ->
      forall tps, WorkerSpec.TensorParallelSize workerSpec = Some tps -> tps < 1 ->
      r = Returns (Some (fmt_Errorf InvalidWorkerSpecTensorParallelSizeValueError
                           [name; strconv_Itoa tps])))
  /\ (atMostOneContainer workerSpec -> pipelineParallelSizeOK workerSpec ->
      tensorParallelSizeOK workerSpec ->
      r = validateMultiNodeVariables_containers isvc (WorkerSpec.Containers workerSpec)
      /\ ((forall c, c ∈ WorkerSpec.Containers workerSpec ->
             gpuTypeKnown isvc (Container.Resources c)) ->
          modelStorageURI isvc = None /\ r = Returns None)).
Proof.
  intros Hw Hm name r. subst r name.
  unfold validateMultiNodeVariables, modelStorageURI, atMostOneContainer,
    pipelineParallelSizeOK, tensorParallelSizeOK.
  unfold predictorOf in *. rewrite Hw, Hm.
  destruct (Nat.ltb_spec 1 (length (WorkerSpec.Containers workerSpec))) as [Hlen | Hlen].
  { split; [reflexivity |]. repeat split; intros; lia. }
  split; [intros Hn; now destruct Hn |]. simpl.
  destruct (WorkerSpec.PipelineParallelSize workerSpec) as [pps|].
  - destruct (Z.ltb_spec pps 2) as [Hp | Hp]; simpl.
    + split; [intros _ ? [= <-] _; reflexivity |].
      split; [intros _ Hok; specialize (Hok pps eq_refl); lia |].
      intros _ Hok; specialize (Hok pps eq_refl); lia.
    + split; [intros _ ? [= <-] ?; lia |].
      destruct (WorkerSpec.TensorParallelSize workerSpec) as [tps|].
      * destruct (Z.ltb_spec tps 1) as [Ht | Ht]; simpl.
        -- split; [intros _ _ ? [= <-] _; reflexivity |].
           intros _ _ Hok; specialize (Hok tps eq_refl); lia.
        -- split; [intros _ _ ? [= <-] ?; lia |].
           intros _ _ _. split; [reflexivity |]. intros Hk. split; [reflexivity |].
           now apply validateMultiNodeVariables_containers_known.
      * simpl. split; [intros _ _ ? [=] |].
        intros _ _ _. split; [reflexivity |]. intros Hk. split; [reflexivity |].
        now apply validateMultiNodeVariables_containers_known.
  - split; [intros _ ? [=] |].
    destruct (WorkerSpec.TensorParallelSize workerSpec) as [tps|].
    + destruct (Z.ltb_spec tps 1) as [Ht | Ht]; simpl.
      * split; [intros _ _ ? [= <-] _; reflexivity |].
        intros _ _ Hok; specialize (Hok tps eq_refl); lia.
      * split; [intros _ _ ? [= <-] ?; lia |].
        intros _ _ _. split; [reflexivity |]. intros Hk. split; [reflexivity |].
        now apply validateMultiNodeVariables_containers_known.
    + simpl. split; [intros _ _ ? [=] |].
      intros _ _ _. split; [reflexivity |]. intros Hk. split; [reflexivity |].
      now apply validateMultiNodeVariables_containers_known.
Qed.

End MultiNode.


Section MultiNodeStorage.
Context `{K : constants.t} `{U : utils.t}.

(** C3, as the code has it: when the predictor has a worker topology and a
    built-in model whose storage URI is missing or has a scheme other than
    [pvc], multi-node validation rejects.  When moreover the checks that run
    before the storage check pass (at most one worker container, no
    parallelism variable in the environment of the model, a known GPU resource
    type), the rejection is the missing-URI error for a missing URI and the
    unsupported-protocol error, naming the scheme, otherwise. *)
Theorem validateMultiNodeVariables_storage
    (isvc : InferenceService.t) (workerSpec : WorkerSpec.t) (model : ModelSpec.t) :
  PredictorSpec.WorkerSpec (predictorOf isvc) = Some workerSpec ->
  PredictorSpec.Model (predictorOf isvc) = Some model ->
  ModelSpec.StorageURI model = None
  \/ (exists uri, ModelSpec.StorageURI model = Some uri /\ storageProtocol uri <> "pvc") ->
  let name := InferenceService.Name isvc in
  let r := validateMultiNodeVariables isvc in
  rejected r
  /\ (atMostOneContainer workerSpec -> noParallelismEnv model ->
      gpuTypeKnown isvc (Container.Resources (ModelSpec.Container model)) ->
      (ModelSpec.StorageURI model = None ->
       r = Returns (Some (fmt_Errorf MissingStorageURI [name])))
      /\ (forall uri, ModelSpec.StorageURI model = Some uri ->
          r = Returns (Some (fmt_Errorf InvalidNotSupportedStorageURIProtocolError
                               [name; storageProtocol uri])))).
Proof.
  intros Hw Hm Huri name r. subst r name.
  assert (Hrej := validateMultiNodeVariables_model_rejected isvc model Huri).
  unfold validateMultiNodeVariables, atMostOneContainer.
  unfold predictorOf in *. rewrite Hw, Hm.
  destruct (Nat.ltb_spec 1 (length (WorkerSpec.Containers workerSpec))) as [Hlen | Hlen].
  { split; [unfold rejected; eauto | intros; lia]. }
  split.
  - destruct Hrej as [e ->]. simpl. unfold rejected. eauto.
  - intros _ [Hp Ht] Hgpu. clear Hrej.
    unfold validateMultiNodeVariables_model, checkGPUType.
    unfold gpuTypeKnown in Hgpu. rewrite Hp, Ht, Hgpu. split.
    + intros ->. reflexivity.
    + intros uri Hs. rewrite Hs.
      destruct Huri as [Hnone | (uri' & Hs' & Hne)]; [congruence |].
      assert (uri' = uri) as -> by congruence.
      destruct (strings_Split_storageProtocol uri) as [rest ->].
      rewrite bool_decide_eq_false_2 by assumption. reflexivity.
Qed.

End MultiNodeStorage.

Lemma validateMultiNodeVariables_storage_witness :
  validateMultiNodeVariables s3MultiNode
  = Returns (Some (fmt_Errorf InvalidNotSupportedStorageURIProtocolError ["llm"; "s3"])).
Proof.
  destruct (validateMultiNodeVariables_storage s3MultiNode
              (WorkerSpec.mk [Container.mk "worker-container" [] noResources]
                 (Some 2) (Some 1)) s3Model eq_refl eq_refl) as [_ H].
  - right. exists "s3://bucket/model". split; [reflexivity | vm_compute; discriminate].
  - refine (proj2 (H _ _ _) "s3://bucket/model" eq_refl).
    + unfold atMostOneContainer. simpl. lia.
    + split; reflexivity.
    + reflexivity.
Defined.

(** C3, as stated, fails on both counts.  A predictor with a worker topology
    and no built-in model has no model storage URI and passes multi-node
    validation; and a predictor with a worker topology and an [s3] storage
    URI is rejected with an error that is not the unsupported-protocol one
    when an earlier check fails first. *)
Lemma multinode_storage_not_always_checked :
  (PredictorSpec.WorkerSpec (predictorOf customContainerMultiNode) <> None
   /\ modelStorageURI customContainerMultiNode = None
   /\ validateMultiNodeVariables customContainerMultiNode = Returns None)
  /\ (PredictorSpec.WorkerSpec (predictorOf s3TwoWorkers) <> None
      /\ modelStorageURI s3TwoWorkers = Some "s3://bucket/model"
      /\ storageProtocol "s3://bucket/model" <> "pvc"
      /\ validateMultiNodeVariables s3TwoWorkers
         = Returns (Some (fmt_Errorf DisallowedMultipleContainersInWorkerSpecError ["llm"]))).
Proof.
  split.
  - split; [discriminate |]. split; reflexivity.
  - split; [discriminate |]. split; [reflexivity |].
    split; [vm_compute; discriminate | reflexivity].
Qed.

(** ** Sequencing *)

Lemma check_None_inv c k :
  (do! c ;! k) = Returns None -> c = Returns None /\ k = Returns None.
Proof. destruct c as [[e|]|]; simpl; [discriminate | auto | discriminate]. Qed.

Lemma check_assoc a b c : (do! (do! a ;! b) ;! c) = (do! a ;! do! b ;! c).
Proof. now destruct a as [[e|]|]. Qed.

(** ** Conflicting KEDA settings *)

Section KedaConflict.
Context `{K : constants.t} `{U : utils.t}.

Lemma validateInferenceServiceAutoscaler_loop_switch isvc annotations value r :
  validateInferenceServiceAutoscaler_switch isvc annotations value = Some r ->
  forall items, value ∈ items ->
  validateInferenceServiceAutoscaler_loop isvc annotations value items = r.
Proof.
  intros Hs. induction items as [|item items IH]; simpl; intros Hin.
  - inversion Hin.
  - case_bool_decide as Heq; [now rewrite Hs |].
    apply IH. inversion Hin; subst; [contradiction | assumption].
Qed.

(** C4, as the code has it: when the autoscaler-class annotation is KEDA and
    the extension of the predictor declares both [scaleMetric] and
    [autoScaling], class resolution rejects with the conflict error, whatever
    the two fields hold, and so does the whole validation of a resource with a
    well-formed name.  The rule reads the extension of the predictor only. *)
Theorem keda_predictor_conflict
    (isvc : InferenceService.t) (metric : string) (autoScaling : AutoScalingSpec.t) :
  InferenceService.Annotations isvc !! constants.AutoscalerClass
    = Some constants.AutoscalerClassKeda ->
  constants.AutoscalerClassKeda ∈ constants.AutoscalerAllowedClassList ->
  constants.AutoscalerClassKeda <> constants.AutoscalerClassHPA ->
  ComponentExtensionSpec.ScaleMetric (predictorExtensions isvc) = Some metric ->
  ComponentExtensionSpec.AutoScaling (predictorExtensions isvc) = Some autoScaling ->
  validateInferenceServiceAutoscaler isvc = Returns (Some kedaConflictError)
  /\ (DNSLabel (InferenceService.Name isvc) ->
      validateInferenceService isvc = Returns ([], Some kedaConflictError)).
Proof.
  intros Hclass Hin Hne Hm Ha.
  assert (Hr : validateInferenceServiceAutoscaler isvc = Returns (Some kedaConflictError)).
  { unfold validateInferenceServiceAutoscaler. rewrite Hclass.
    apply validateInferenceServiceAutoscaler_loop_switch; [| assumption].
    unfold validateInferenceServiceAutoscaler_switch.
    rewrite bool_decide_eq_false_2 by assumption.
    rewrite bool_decide_eq_true_2 by reflexivity.
    unfold predictorExtensions in *. now rewrite Hm, Ha. }
  split; [exact Hr |].
  intros Hname. apply MatchString_IsvcRegexp in Hname.
  unfold validateInferenceService, validateInferenceService_rules,
    validateInferenceServiceName.
  now rewrite Hname, Hr.
Qed.

End KedaConflict.

Lemma keda_predictor_conflict_witness :
  validateInferenceService kedaPredictorConflict = Returns ([], Some kedaConflictError).
Proof.
  apply (keda_predictor_conflict kedaPredictorConflict "cpu" (AutoScalingSpec.mk [])).
  - reflexivity.
  - right. left.
  - discriminate.
  - reflexivity.
  - reflexivity.
  - apply MatchString_IsvcRegexp. reflexivity.
Defined.

(** C4, as stated, fails: the resource carries the KEDA class annotation, its
    transformer is non-nil and its extension declares both [scaleMetric] and
    [autoScaling], and the resource is accepted. *)
Lemma keda_transformer_conflict_accepted :
  InferenceService.Annotations kedaTransformerConflict !! constants.AutoscalerClass
    = Some constants.AutoscalerClassKeda
  /\ (exists t,
        InferenceServiceSpec.Transformer (InferenceService.Spec kedaTransformerConflict)
          = Some t
        /\ ComponentExtensionSpec.ScaleMetric (TransformerSpec.ComponentExtensionSpec t)
             <> None
        /\ ComponentExtensionSpec.AutoScaling (TransformerSpec.ComponentExtensionSpec t)
             <> None)
  /\ validateInferenceServiceAutoscaler kedaTransformerConflict = Returns None
  /\ validateInferenceService kedaTransformerConflict = Returns ([], None).
Proof.
  split; [reflexivity |]. split.
  - eexists. split; [reflexivity |]. split; discriminate.
  - split; vm_compute; reflexivity.
Qed.

(** ** Exactly one implementation per component *)

Section ExactlyOne.
Context `{K : constants.t} `{U : utils.t}.

Lemma validateExactlyOneImplementation_spec component :
  (length (Component.GetImplementations component) <> 1%nat ->
   validateExactlyOneImplementation component = Returns (Some (exactlyOneError component)))
  /\ (length (Component.GetImplementations component) = 1%nat ->
      validateExactlyOneImplementation component = Returns None).
Proof.
  unfold validateExactlyOneImplementation.
  destruct (Nat.eqb_spec (length (Component.GetImplementations component)) 1);
    simpl; split; intros; (reflexivity || contradiction).
Qed.

Lemma validateInferenceService_components_app annotations pre rest :
  validateInferenceService_components annotations (pre ++ rest)%list
  = (do! validateInferenceService_components annotations pre ;!
     validateInferenceService_components annotations rest).
Proof.
  induction pre as [|[c|] pre IH]; simpl; [reflexivity | | exact IH].
  now rewrite IH, check_assoc.
Qed.

Lemma validateInferenceService_components_not_accepted annotations component components :
  Some component ∈ components ->
  length (Component.GetImplementations component) <> 1%nat ->
  validateInferenceService_components annotations components <> Returns None.
Proof.
  intros Hin Hlen. induction components as [|[c|] cs IH]; simpl.
  - inversion Hin.
  - intros [Hc Hcs]%check_None_inv.
    apply elem_of_cons in Hin as [[= ->] | Hin].
    + unfold validateInferenceService_component in Hc.
      rewrite (proj1 (validateExactlyOneImplementation_spec c) Hlen) in Hc.
      discriminate.
    + now apply IH.
  - apply IH. apply elem_of_cons in Hin as [[=] | Hin]. assumption.
Qed.

Lemma validateInferenceService_component_accepted annotations component :
  length (Component.GetImplementations component) = 1%nat ->
  componentRulesPass annotations component ->
  validateInferenceService_component annotations component = Returns None.
Proof.
  intros Hlen (Himpl & Hext & Hscale).
  unfold validateInferenceService_component, GetImplementation.
  rewrite (proj2 (validateExactlyOneImplementation_spec component) Hlen). simpl.
  destruct (Component.GetImplementations component) as [|implementation rest];
    [discriminate |].
  simpl. rewrite Hscale, Hext, (Himpl implementation) by left. reflexivity.
Qed.

Lemma validateInferenceService_components_accepted annotations components :
  (forall c, Some c ∈ components ->
     length (Component.GetImplementations c) = 1%nat /\ componentRulesPass annotations c) ->
  validateInferenceService_components annotations components = Returns None.
Proof.
  induction components as [|[c|] cs IH]; simpl; intros Hall; [reflexivity | |].
  - destruct (Hall c) as [Hlen Hpass]; [left |].
    rewrite (validateInferenceService_component_accepted _ _ Hlen Hpass). simpl.
    apply IH. intros c' Hc'. apply Hall. now right.
  - apply IH. intros c' Hc'. apply Hall. now right.
Qed.

Lemma validateInferenceService_rules_components isvc :
  earlierRulesPass isvc ->
  validateInferenceService_rules isvc
  = validateInferenceService_components (InferenceService.Annotations isvc)
      (components_of isvc).
Proof.
  intros (H1 & H2 & H3 & H4 & H5). unfold validateInferenceService_rules.
  now rewrite H1, H2, H3, H4, H5.
Qed.

Lemma validateInferenceService_not_accepted isvc component :
  Some component ∈ components_of isvc ->
  length (Component.GetImplementations component) <> 1%nat ->
  validateInferenceService isvc <> Returns ([], None).
Proof.
  intros Hin Hlen. unfold validateInferenceService.
  destruct (validateInferenceService_rules isvc) as [[e|]|] eqn:Hr; try discriminate.
  exfalso. unfold validateInferenceService_rules in Hr.
  do 5 (apply check_None_inv in Hr as [_ Hr]).
  exact (validateInferenceService_components_not_accepted _ component _ Hin Hlen Hr).
Qed.

(** C2, as the code has it.  For each of the three slots, predictor,
    transformer and explainer: when the slot is non-nil and its component has
    zero or several populated implementation variants, the resource is not
    accepted, and the result is the exactly-one error naming the component as
    soon as every rule that runs before that check passes, that is the five
    rules before the loop and the components of the slots before it.  When
    every non-nil slot has exactly one variant and all other rules pass, the
    resource is accepted. *)
Theorem exactly_one_implementation_slots (isvc : InferenceService.t) :
  let spec := InferenceService.Spec isvc in
  let annotations := InferenceService.Annotations isvc in
  let predictor := InferenceServiceSpec.Predictor spec in
  let passes component :=
    validateInferenceService_component annotations component = Returns None in
  let r := validateInferenceService isvc in
  (length (PredictorSpec.Implementations predictor) <> 1%nat ->
   r <> Returns ([], None)
   /\ (earlierRulesPass isvc ->
       r = Returns ([], Some (fmt_Errorf ExactlyOneErrorFormat ["PredictorSpec"]))))
  /\ (forall transformer,
        InferenceServiceSpec.Transformer spec = Some transformer ->
        length (TransformerSpec.Implementations transformer) <> 1%nat ->
        r <> Returns ([], None)
        /\ (earlierRulesPass isvc -> passes (Component_of_Predictor predictor) ->
            r = Returns ([], Some (fmt_Errorf ExactlyOneErrorFormat ["TransformerSpec"]))))
  /\ (forall explainer,
        InferenceServiceSpec.Explainer spec = Some explainer ->
        length (ExplainerSpec.Implementations explainer) <> 1%nat ->
        r <> Returns ([], None)
        /\ (earlierRulesPass isvc -> passes (Component_of_Predictor predictor) ->
            (forall transformer,
               InferenceServiceSpec.Transformer spec = Some transformer ->
               passes (Component_of_Transformer transformer)) ->
            r = Returns ([], Some (fmt_Errorf ExactlyOneErrorFormat ["ExplainerSpec"]))))
  /\ (earlierRulesPass isvc ->
      length (PredictorSpec.Implementations predictor) = 1%nat
      /\ componentRulesPass annotations (Component_of_Predictor predictor) ->
      (forall transformer,
         InferenceServiceSpec.Transformer spec = Some transformer ->
         length (TransformerSpec.Implementations transformer) = 1%nat
         /\ componentRulesPass annotations (Component_of_Transformer transformer)) ->
      (forall explainer,
         InferenceServiceSpec.Explainer spec = Some explainer ->
         length (ExplainerSpec.Implementations explainer) = 1%nat
         /\ componentRulesPass annotations (Component_of_Explainer explainer)) ->
      r = Returns ([], None)).
Proof.
  intros spec annotations predictor passes r. subst passes r.
  assert (Hrules : earlierRulesPass isvc ->
    validateInferenceService isvc
    = match (do! validateInferenceService_component annotations
                   (Component_of_Predictor predictor) ;!
             validateInferenceService_components annotations
               [Component_of_Transformer <$> InferenceServiceSpec.Transformer spec;
                Component_of_Explainer <$> InferenceServiceSpec.Explainer spec]) with
      | Returns err => Returns ([], err)
      | Panics => Panics
      end).
  { intros Hearlier. unfold validateInferenceService.
    now rewrite (validateInferenceService_rules_components _ Hearlier). }
  split; [| split; [| split]].
  - intros Hlen. split.
    + apply (validateInferenceService_not_accepted isvc (Component_of_Predictor predictor));
        [left | exact Hlen].
    + intros Hearlier. rewrite (Hrules Hearlier).
      unfold validateInferenceService_component.
      now rewrite (proj1 (validateExactlyOneImplementation_spec
                            (Component_of_Predictor predictor)) Hlen).
  - intros transformer Ht Hlen. split.
    + apply (validateInferenceService_not_accepted isvc
               (Component_of_Transformer transformer)); [| exact Hlen].
      unfold components_of. fold spec. rewrite Ht. right. left.
    + intros Hearlier Hp. rewrite (Hrules Hearlier), Hp, Ht. simpl.
      unfold validateInferenceService_component.
      now rewrite (proj1 (validateExactlyOneImplementation_spec
                            (Component_of_Transformer transformer)) Hlen).
  - intros explainer He Hlen. split.
    + apply (validateInferenceService_not_accepted isvc
               (Component_of_Explainer explainer)); [| exact Hlen].
      unfold components_of. fold spec. rewrite He. right. right. left.
    + intros Hearlier Hp Htp. rewrite (Hrules Hearlier), Hp, He. simpl.
      assert (Hone : validateInferenceService_component annotations
                       (Component_of_Explainer explainer)
                     = Returns (Some (fmt_Errorf ExactlyOneErrorFormat ["ExplainerSpec"]))).
      { unfold validateInferenceService_component.
        now rewrite (proj1 (validateExactlyOneImplementation_spec
                              (Component_of_Explainer explainer)) Hlen). }
      destruct (InferenceServiceSpec.Transformer spec) as [transformer|]; simpl.
      * now rewrite (Htp transformer eq_refl), Hone.
      * now rewrite Hone.
  - intros Hearlier Hp Ht He. unfold validateInferenceService.
    rewrite (validateInferenceService_rules_components _ Hearlier).
    rewrite validateInferenceService_components_accepted; [reflexivity |].
    intros c Hc. unfold components_of in Hc. fold spec in Hc.
    apply elem_of_cons in Hc as [[= ->] | Hc]; [exact Hp |].
    apply elem_of_cons in Hc as [Hc | Hc].
    { destruct (InferenceServiceSpec.Transformer spec) as [transformer|]; [| discriminate].
      injection Hc as ->. now apply Ht. }
    apply elem_of_cons in Hc as [Hc | Hc]; [| inversion Hc].
    destruct (InferenceServiceSpec.Explainer spec) as [explainer|]; [| discriminate].
    injection Hc as ->. now apply He.
Qed.

End ExactlyOne.

(** The transformer slot, then the explainer slot. *)
Lemma exactly_one_implementation_slots_witness :
  validateInferenceService twoVariantTransformer
    = Returns ([], Some (fmt_Errorf ExactlyOneErrorFormat ["TransformerSpec"]))
  /\ validateInferenceService noVariantExplainer
     = Returns ([], Some (fmt_Errorf ExactlyOneErrorFormat ["ExplainerSpec"])).
Proof.
  split.
  - refine (proj2 (proj1 (proj2 (exactly_one_implementation_slots twoVariantTransformer))
                     (TransformerSpec.mk noExtensions
                        [validImplementation; validImplementation]) eq_refl _) _ _).
    + simpl. lia.
    + repeat split; reflexivity.
    + reflexivity.
  - refine (proj2 (proj1 (proj2 (proj2 (exactly_one_implementation_slots noVariantExplainer)))
                     (ExplainerSpec.mk noExtensions []) eq_refl _) _ _ _).
    + simpl. lia.
    + repeat split; reflexivity.
    + reflexivity.
    + intros transformer [= <-]. reflexivity.
Defined.

(** C2, as stated, fails: a non-nil component with no implementation variant
    does not always get the rejection naming it.  With a name outside the
    grammar the result is the name error, and with a nil resource in the first
    KEDA entry the validation panics before the components are reached. *)
Lemma exactly_one_not_always_named :
  (length (PredictorSpec.Implementations
             (InferenceServiceSpec.Predictor (InferenceService.Spec badNameNoImplementation)))
     <> 1%nat
   /\ validateInferenceService badNameNoImplementation
      = Returns ([], Some (fmt_Errorf InvalidISVCNameFormatError ["Bad_Name"; IsvcNameFmt])))
  /\ (length (PredictorSpec.Implementations
                (InferenceServiceSpec.Predictor
                   (InferenceService.Spec nilResourceNoImplementation)))
        <> 1%nat
      /\ validateInferenceService nilResourceNoImplementation = Panics).
Proof.
  split; (split; [simpl; lia | vm_compute; reflexivity]).
Qed.

(** ** Autoscaler-class resolution *)

Section ClassResolution.
Context `{K : constants.t} `{U : utils.t}.

Lemma validateInferenceServiceAutoscaler_absent isvc :
  InferenceService.Annotations isvc !! constants.AutoscalerClass = None ->
  validateInferenceServiceAutoscaler isvc = Returns None.
Proof. intros H. unfold validateInferenceServiceAutoscaler. now rewrite H. Qed.

Lemma validateInferenceServiceAutoscaler_loop_skip isvc annotations value items :
  validateInferenceServiceAutoscaler_switch isvc annotations value = None
  \/ value ∉ items ->
  validateInferenceServiceAutoscaler_loop isvc annotations value items
  = Returns (Some (unsupportedClassError value)).
Proof.
  intros H. induction items as [|item items IH]; simpl; [reflexivity |].
  case_bool_decide as Heq.
  - destruct H as [Hs | Hn]; [rewrite Hs; apply IH; now left |].
    destruct Hn. subst. left.
  - apply IH. destruct H as [H | Hn]; [now left | right].
    intros Hin. apply Hn. now right.
Qed.

Lemma validateInferenceServiceAutoscaler_not_allowed isvc value :
  InferenceService.Annotations isvc !! constants.AutoscalerClass = Some value ->
  value ∉ constants.AutoscalerAllowedClassList ->
  validateInferenceServiceAutoscaler isvc = Returns (Some (unsupportedClassError value)).
Proof.
  intros H Hn. unfold validateInferenceServiceAutoscaler. rewrite H.
  apply validateInferenceServiceAutoscaler_loop_skip. now right.
Qed.

(** C1 at its failing inputs: with the KEDA class annotation and a predictor
    that declares neither [scaleMetric] nor any entry of [autoScaling.metrics],
    the KEDA case of the switch ends without a return, the loop over the
    allowed classes runs out, and the resource is rejected with the
    unsupported-class error naming KEDA, whether or not KEDA is in the
    allow-list. *)
Theorem keda_without_scaling_unsupported (isvc : InferenceService.t) :
  InferenceService.Annotations isvc !! constants.AutoscalerClass
    = Some constants.AutoscalerClassKeda ->
  constants.AutoscalerClassKeda <> constants.AutoscalerClassHPA ->
  ComponentExtensionSpec.ScaleMetric (predictorExtensions isvc) = None ->
  ComponentExtensionSpec.AutoScaling (predictorExtensions isvc) = None
  \/ ComponentExtensionSpec.AutoScaling (predictorExtensions isvc)
     = Some (AutoScalingSpec.mk []) ->
  validateInferenceServiceAutoscaler isvc
  = Returns (Some (unsupportedClassError constants.AutoscalerClassKeda)).
Proof.
  intros Hclass Hne Hm Ha. unfold validateInferenceServiceAutoscaler. rewrite Hclass.
  apply validateInferenceServiceAutoscaler_loop_skip. left.
  unfold validateInferenceServiceAutoscaler_switch.
  rewrite bool_decide_eq_false_2 by assumption.
  rewrite bool_decide_eq_true_2 by reflexivity.
  unfold predictorExtensions in *. rewrite Hm.
  destruct Ha as [-> | ->]; reflexivity.
Qed.

End ClassResolution.

Lemma keda_without_scaling_unsupported_witness :
  "keda" ∈ constants.AutoscalerAllowedClassList
  /\ validateInferenceServiceAutoscaler kedaNoScaling
     = Returns (Some (unsupportedClassError "keda")).
Proof.
  split; [right; left |].
  refine (keda_without_scaling_unsupported kedaNoScaling _ _ _ _).
  - reflexivity.
  - discriminate.
  - reflexivity.
  - left. reflexivity.
Defined.

(** ** The entries of [autoScaling.metrics] under KEDA *)

(** C5 at its failing inputs: an entry naming a metric outside the KEDA set,
    or carrying an unknown tag, is rejected in the first position and passes
    unexamined in the second one, and the resource is then accepted. *)
Theorem keda_metrics_after_first_unchecked :
  validateInferenceServiceAutoscaler (kedaMetrics [resourceMetric "disk" 50])
    = Returns (Some (fmt_Errorf (Literal "[%s] is not a supported metric in KEDA.\n")
                       ["disk"]))
  /\ validateInferenceServiceAutoscaler
       (kedaMetrics [resourceMetric "cpu" 50; resourceMetric "disk" 50])
     = Returns None
  /\ validateInferenceService
       (kedaMetrics [resourceMetric "cpu" 50; resourceMetric "disk" 50])
     = Returns ([], None)
  /\ (exists e, validateInferenceServiceAutoscaler (kedaMetrics [untypedMetric])
                = Returns (Some e))
  /\ validateInferenceServiceAutoscaler
       (kedaMetrics [resourceMetric "cpu" 50; untypedMetric])
     = Returns None
  /\ validateInferenceService (kedaMetrics [resourceMetric "cpu" 50; untypedMetric])
     = Returns ([], None).
Proof.
  split; [vm_compute; reflexivity |].
  split; [vm_compute; reflexivity |].
  split; [vm_compute; reflexivity |].
  split; [eexists; vm_compute; reflexivity |].
  split; vm_compute; reflexivity.
Qed.

(** ** The HPA bounds evaluator *)

Section HPABounds.
Context `{K : constants.t} `{U : utils.t}.

(** With the CPU metric, a target is rejected exactly outside [1, 100]. *)
Lemma validateScalingHPACompExtension_cpu compExtSpec target :
  hpaMetric compExtSpec = constants.MetricCPU ->
  slices_Contains constants.AutoscalerAllowedHPAMetricsList constants.MetricCPU = true ->
  ComponentExtensionSpec.ScaleTarget compExtSpec = Some target ->
  (target < 1 \/ 100 < target ->
   validateScalingHPACompExtension compExtSpec = Returns (Some percentageError))
  /\ (1 <= target <= 100 -> validateScalingHPACompExtension compExtSpec = Returns None).
Proof.
  unfold hpaMetric, validateScalingHPACompExtension, validateHPAMetrics.
  intros -> -> ->. simpl.
  rewrite bool_decide_eq_true_2 by reflexivity.
  destruct (Z.ltb_spec target 1), (Z.gtb_spec target 100); simpl;
    try (split; intros; (reflexivity || lia)).
  split; [intros; lia |]. intros _. now case_bool_decide.
Qed.

(** C6 at its failing inputs: whatever the metric of the HPA set, Memory
    included, a target above 100 is rejected with the percentage error. *)
Theorem validateScalingHPACompExtension_above_100
    (compExtSpec : ComponentExtensionSpec.t) (target : Z) :
  slices_Contains constants.AutoscalerAllowedHPAMetricsList (hpaMetric compExtSpec) = true ->
  ComponentExtensionSpec.ScaleTarget compExtSpec = Some target ->
  100 < target ->
  validateScalingHPACompExtension compExtSpec = Returns (Some percentageError).
Proof.
  unfold hpaMetric, validateScalingHPACompExtension, validateHPAMetrics.
  intros -> -> Ht. simpl.
  destruct (Z.gtb_spec target 100); [| lia].
  now rewrite orb_true_r.
Qed.

End HPABounds.

Lemma validateScalingHPACompExtension_above_100_witness :
  validateScalingHPACompExtension
    (ComponentExtensionSpec.mk (Some 200) (Some "memory") None None)
  = Returns (Some percentageError).
Proof.
  apply (validateScalingHPACompExtension_above_100
           (ComponentExtensionSpec.mk (Some 200) (Some "memory") None None) 200).
  - reflexivity.
  - reflexivity.
  - lia.
Defined.


(** * Further properties of the rule evaluators *)

Lemma slices_Contains_spec (l : list string) (x : string) :
  slices_Contains l x = true <-> x ∈ l.
Proof.
  unfold slices_Contains. induction l as [|y l IH]; simpl.
  - split; [discriminate | inversion 1].
  - rewrite orb_true_iff, IH, bool_decide_eq_true, elem_of_cons. intuition congruence.
Qed.

Lemma slices_Contains_false (l : list string) (x : string) :
  slices_Contains l x = false <-> x ∉ l.
Proof.
  rewrite <- slices_Contains_spec. destruct (slices_Contains l x); intuition congruence.
Qed.

(** ** Class resolution, case by case *)

Section ClassCases.
Context `{K : constants.t} `{U : utils.t}.

(** X1: without the autoscaler-class annotation class resolution returns no
    error; with a value that is not in the allow-list it returns the
    unsupported-class error naming that value, whatever the resource holds. *)
Theorem autoscaler_class_absent_or_outside (isvc : InferenceService.t) :
  (InferenceService.Annotations isvc !! constants.AutoscalerClass = None ->
   validateInferenceServiceAutoscaler isvc = Returns None)
  /\ (forall value,
        InferenceService.Annotations isvc !! constants.AutoscalerClass = Some value ->
        value ∉ constants.AutoscalerAllowedClassList ->
        validateInferenceServiceAutoscaler isvc
        = Returns (Some (unsupportedClassError value))).
Proof.
  split.
  - apply validateInferenceServiceAutoscaler_absent.
  - intros value. apply validateInferenceServiceAutoscaler_not_allowed.
Qed.

(** X2: with the External class, a member of the allow-list, class resolution
    returns no error for every resource: nothing of the spec is read. *)
Theorem autoscaler_class_external (isvc : InferenceService.t) :
  InferenceService.Annotations isvc !! constants.AutoscalerClass
    = Some constants.AutoscalerClassExternal ->
  constants.AutoscalerClassExternal ∈ constants.AutoscalerAllowedClassList ->
  constants.AutoscalerClassExternal <> constants.AutoscalerClassHPA ->
  constants.AutoscalerClassExternal <> constants.AutoscalerClassKeda ->
  validateInferenceServiceAutoscaler isvc = Returns None.
Proof.
  intros Hclass Hin Hh Hk. unfold validateInferenceServiceAutoscaler. rewrite Hclass.
  apply validateInferenceServiceAutoscaler_loop_switch; [| assumption].
  unfold validateInferenceServiceAutoscaler_switch.
  rewrite !bool_decide_eq_false_2 by assumption.
  now rewrite bool_decide_eq_true_2.
Qed.

(** X3: with the HPA class, a member of the allow-list, class resolution
    looks at the metrics annotation only: no error when it is absent or names
    a metric of the HPA set, the unsupported-metric error naming it
    otherwise. *)
Theorem autoscaler_class_hpa (isvc : InferenceService.t) :
  InferenceService.Annotations isvc !! constants.AutoscalerClass
    = Some constants.AutoscalerClassHPA ->
  constants.AutoscalerClassHPA ∈ constants.AutoscalerAllowedClassList ->
  let r := validateInferenceServiceAutoscaler isvc in
  (InferenceService.Annotations isvc !! constants.AutoscalerMetrics = None ->
   r = Returns None)
  /\ (forall metric,
        InferenceService.Annotations isvc !! constants.AutoscalerMetrics = Some metric ->
        (metric ∈ constants.AutoscalerAllowedHPAMetricsList -> r = Returns None)
        /\ (metric ∉ constants.AutoscalerAllowedHPAMetricsList ->
            r = Returns (Some (fmt_Errorf (Literal "[%s] is not a supported metric")
                                 [metric])))).
Proof.
  intros Hclass Hin r. subst r. unfold validateInferenceServiceAutoscaler. rewrite Hclass.
  assert (Hs : forall r,
    validateInferenceServiceAutoscaler_switch isvc (InferenceService.Annotations isvc)
      constants.AutoscalerClassHPA = Some r ->
    validateInferenceServiceAutoscaler_loop isvc (InferenceService.Annotations isvc)
      constants.AutoscalerClassHPA constants.AutoscalerAllowedClassList = r).
  { intros r Hr. now apply validateInferenceServiceAutoscaler_loop_switch. }
  unfold validateInferenceServiceAutoscaler_switch in Hs.
  rewrite bool_decide_eq_true_2 in Hs by reflexivity.
  split.
  - intros Hm. rewrite Hm in Hs. now apply Hs.
  - intros metric Hm. rewrite Hm in Hs. rewrite (Hs _ eq_refl).
    unfold validateHPAMetrics. split.
    + intros Hmem%slices_Contains_spec. now rewrite Hmem.
    + intros Hmem%slices_Contains_false. now rewrite Hmem.
Qed.

(** X4: with the KEDA class, a member of the allow-list, and a predictor that
    declares [scaleMetric] and no [autoScaling], class resolution returns no
    error exactly when the metric is in the KEDA set, and the KEDA
    unsupported-metric error naming it otherwise. *)
Theorem autoscaler_class_keda_scale_metric (isvc : InferenceService.t) (metric : string) :
  InferenceService.Annotations isvc !! constants.AutoscalerClass
    = Some constants.AutoscalerClassKeda ->
  constants.AutoscalerClassKeda ∈ constants.AutoscalerAllowedClassList ->
  constants.AutoscalerClassKeda <> constants.AutoscalerClassHPA ->
  ComponentExtensionSpec.ScaleMetric (predictorExtensions isvc) = Some metric ->
  ComponentExtensionSpec.AutoScaling (predictorExtensions isvc) = None ->
  let r := validateInferenceServiceAutoscaler isvc in
  (metric ∈ constants.AutoscalerAllowedKEDAMetricsList -> r = Returns None)
  /\ (metric ∉ constants.AutoscalerAllowedKEDAMetricsList ->
      r = Returns (Some (fmt_Errorf
            (Literal "[%s] is not a supported metric in KEDA.\n") [metric]))).
Proof.
  intros Hclass Hin Hne Hm Ha r. subst r.
  unfold validateInferenceServiceAutoscaler. rewrite Hclass.
  rewrite (validateInferenceServiceAutoscaler_loop_switch _ _ _ (validateKEDAMetrics metric));
    [| | assumption].
  - unfold validateKEDAMetrics. split.
    + intros Hmem%slices_Contains_spec. now rewrite Hmem.
    + intros Hmem%slices_Contains_false. now rewrite Hmem.
  - unfold validateInferenceServiceAutoscaler_switch.
    rewrite bool_decide_eq_false_2 by assumption.
    rewrite bool_decide_eq_true_2 by reflexivity.
    unfold predictorExtensions in *. now rewrite Hm, Ha.
Qed.

End ClassCases.

Lemma autoscaler_class_absent_or_outside_witness :
  validateInferenceServiceAutoscaler
    (plainService {[ "serving.kserve.io/autoscalerClass" := "foo" ]})
  = Returns (Some (unsupportedClassError "foo")).
Proof.
  refine (proj2 (autoscaler_class_absent_or_outside
    (plainService {[ "serving.kserve.io/autoscalerClass" := "foo" ]})) "foo" eq_refl _).
  apply slices_Contains_false. reflexivity.
Defined.

Lemma autoscaler_class_external_witness :
  validateInferenceServiceAutoscaler
    (plainService {[ "serving.kserve.io/autoscalerClass" := "external" ]})
  = Returns None.
Proof.
  refine (autoscaler_class_external
    (plainService {[ "serving.kserve.io/autoscalerClass" := "external" ]}) eq_refl _ _ _).
  - apply slices_Contains_spec. reflexivity.
  - discriminate.
  - discriminate.
Defined.

Lemma autoscaler_class_hpa_witness :
  validateInferenceServiceAutoscaler
    (plainService {[ "serving.kserve.io/autoscalerClass" := "hpa";
                     "serving.kserve.io/metrics" := "rps" ]})
  = Returns (Some (fmt_Errorf (Literal "[%s] is not a supported metric") ["rps"])).
Proof.
  refine (proj2 (proj2 (autoscaler_class_hpa
    (plainService {[ "serving.kserve.io/autoscalerClass" := "hpa";
                     "serving.kserve.io/metrics" := "rps" ]}) _ _) "rps" _) _).
  - vm_compute. reflexivity.
  - apply slices_Contains_spec. reflexivity.
  - vm_compute. reflexivity.
  - apply slices_Contains_false. reflexivity.
Defined.

Lemma autoscaler_class_keda_scale_metric_witness :
  validateInferenceServiceAutoscaler kedaTransformerConflict = Returns None.
Proof.
  refine (proj1 (autoscaler_class_keda_scale_metric kedaTransformerConflict "cpu"
    eq_refl _ _ eq_refl eq_refl) _).
  - apply slices_Contains_spec. reflexivity.
  - discriminate.
  - apply slices_Contains_spec. reflexivity.
Defined.

(** ** The bounds evaluators *)

Section Evaluators.
Context `{K : constants.t} `{U : utils.t}.

Lemma scaleTarget_bounds metric target (ok : outcome (option error)) :
  (if (bool_decide (metric = constants.MetricCPU) && (target <? 1)) || (target >? 100)
   then Returns (Some percentageError)
   else if bool_decide (metric = constants.MetricMemory) && (target <? 1)
   then Returns (Some (errors_New "the target memory should be greater than 1 MiB"))
   else ok) = Returns None
  <-> ok = Returns None
      /\ target <= 100
      /\ (metric = constants.MetricCPU \/ metric = constants.MetricMemory -> 1 <= target).
Proof.
  destruct (Z.ltb_spec target 1), (Z.gtb_spec target 100);
    repeat case_bool_decide; simpl; split;
    try discriminate; try (intros (_ & ? & ?); lia); try (intros (_ & _ & ?); intuition lia);
    intros; intuition (try lia; try congruence).
Qed.

(** X5: the HPA evaluator returns no error exactly when the metric
    ([scaleMetric], CPU when unset) is in the HPA set and a set [scaleTarget]
    is at most 100 and, for the CPU and Memory metrics, at least 1.  It never
    panics. *)
Theorem validateScalingHPACompExtension_accepts (compExtSpec : ComponentExtensionSpec.t) :
  let metric := metricOr constants.MetricCPU compExtSpec in
  (validateScalingHPACompExtension compExtSpec = Returns None
   <-> metric ∈ constants.AutoscalerAllowedHPAMetricsList
       /\ targetWithinBounds metric compExtSpec)
  /\ validateScalingHPACompExtension compExtSpec <> Panics.
Proof.
  unfold validateScalingHPACompExtension, validateHPAMetrics, metricOr, targetWithinBounds.
  cbv zeta.
  set (metric := match ComponentExtensionSpec.ScaleMetric compExtSpec with
                 | Some m => m | None => constants.MetricCPU end).
  rewrite <- slices_Contains_spec.
  destruct (slices_Contains constants.AutoscalerAllowedHPAMetricsList metric); simpl.
  - destruct (ComponentExtensionSpec.ScaleTarget compExtSpec) as [target|].
    + split.
      * fold percentageError. rewrite scaleTarget_bounds. split.
        -- intros (_ & ? & ?). split; [reflexivity |]. now intros ? [= <-].
        -- intros [_ Hb]. destruct (Hb target eq_refl). auto.
      * repeat (case_match; try discriminate).
    + split; [| discriminate]. split; [| reflexivity].
      intros _. split; [reflexivity |]. intros ? [=].
  - split; [| discriminate]. split; [discriminate | intros [? _]; discriminate].
Qed.

Lemma validateKPAMetrics_spec metric :
  (metric ∈ constants.AutoScalerKPAMetricsAllowedList ->
   validateKPAMetrics metric = Returns None)
  /\ (metric ∉ constants.AutoScalerKPAMetricsAllowedList ->
      validateKPAMetrics metric
      = Returns (Some (fmt_Errorf (Literal "[%s] is not a supported metric") [metric]))).
Proof.
  unfold validateKPAMetrics.
  induction constants.AutoScalerKPAMetricsAllowedList as [|item items [IH1 IH2]]; simpl.
  - split; [inversion 1 | reflexivity].
  - case_bool_decide as Heq; split.
    + reflexivity.
    + intros Hn. destruct Hn. subst. left.
    + intros [-> | Hin]%elem_of_cons; [contradiction | auto].
    + intros Hn. apply IH2. intros Hin. apply Hn. now right.
Qed.

(** X6: the KPA evaluator returns no error exactly when no
    [deploymentStrategy] is set, the metric ([scaleMetric], Concurrency when
    unset) is in the KPA set, and a set [scaleTarget] is at least 1 when the
    metric is RPS; a target for any other metric is not bounded. *)
Theorem validateScalingKPACompExtension_accepts (compExtSpec : ComponentExtensionSpec.t) :
  let metric := metricOr constants.MetricConcurrency compExtSpec in
  validateScalingKPACompExtension compExtSpec = Returns None
  <-> ComponentExtensionSpec.DeploymentStrategy compExtSpec = None
      /\ metric ∈ constants.AutoScalerKPAMetricsAllowedList
      /\ (forall target, ComponentExtensionSpec.ScaleTarget compExtSpec = Some target ->
            metric = constants.MetricRPS -> 1 <= target).
Proof.
  unfold validateScalingKPACompExtension, metricOr. cbv zeta.
  set (metric := match ComponentExtensionSpec.ScaleMetric compExtSpec with
                 | Some m => m | None => constants.MetricConcurrency end).
  destruct (ComponentExtensionSpec.DeploymentStrategy compExtSpec) as [[]|].
  { split; [discriminate | intros [? _]; discriminate]. }
  destruct (decide (metric ∈ constants.AutoScalerKPAMetricsAllowedList)) as [Hin | Hn].
  - rewrite (proj1 (validateKPAMetrics_spec metric) Hin). simpl.
    destruct (ComponentExtensionSpec.ScaleTarget compExtSpec) as [target|].
    + case_bool_decide as Hrps; destruct (Z.ltb_spec target 1); simpl; split;
        try discriminate; try reflexivity.
      * intros (_ & _ & Hb). specialize (Hb target eq_refl Hrps). lia.
      * intros _. repeat split; try assumption. intros ? [= <-] _. assumption.
      * intros _. repeat split; try assumption. intros ? [= <-] ?. contradiction.
      * intros _. repeat split; try assumption. intros ? [= <-] ?. contradiction.
    + split; [| reflexivity]. intros _. repeat split; try assumption. intros ? [=].
  - rewrite (proj2 (validateKPAMetrics_spec metric) Hn). simpl.
    split; [discriminate | intros (_ & ? & _); contradiction].
Qed.

(** X7: without [autoScaling], the KEDA evaluator bounds a set [scaleTarget]
    as the HPA evaluator does and checks nothing else: the metric is not
    compared with any vocabulary. *)
Theorem validateScalingKedaCompExtension_without_autoScaling
    (compExtSpec : ComponentExtensionSpec.t) :
  ComponentExtensionSpec.AutoScaling compExtSpec = None ->
  let metric := metricOr constants.MetricCPU compExtSpec in
  (validateScalingKedaCompExtension compExtSpec = Returns None
   <-> targetWithinBounds metric compExtSpec)
  /\ validateScalingKedaCompExtension compExtSpec <> Panics.
Proof.
  intros Ha. unfold validateScalingKedaCompExtension, metricOr, targetWithinBounds.
  cbv zeta. rewrite Ha.
  set (metric := match ComponentExtensionSpec.ScaleMetric compExtSpec with
                 | Some m => m | None => constants.MetricCPU end).
  destruct (ComponentExtensionSpec.ScaleTarget compExtSpec) as [target|].
  - split.
    + transitivity
        ((if (bool_decide (metric = constants.MetricCPU) && (target <? 1)) || (target >? 100)
          then Returns (Some percentageError)
          else if bool_decide (metric = constants.MetricMemory) && (target <? 1)
          then Returns (Some (errors_New "the target memory should be greater than 1 MiB"))
          else Returns None) = Returns None).
      * unfold percentageError. repeat (case_match; simpl); split; congruence.
      * rewrite scaleTarget_bounds. split.
        -- intros (_ & ? & ?). now intros ? [= <-].
        -- intros Hb. destruct (Hb target eq_refl). auto.
    + repeat (case_match; simpl; try discriminate).
  - simpl. split; [| discriminate]. split; [intros _ ? [=] | reflexivity].
Qed.

(** X8: the KEDA evaluator passes over an entry of [autoScaling.metrics]
    whose type is neither Resource nor External: removing the entry does not
    change the result. *)
Theorem validateScalingKedaCompExtension_metrics_untyped
    (pre post : list MetricsSpec.t) (entry : MetricsSpec.t) :
  isUntypedEntry entry ->
  validateScalingKedaCompExtension_metrics (pre ++ entry :: post)%list
  = validateScalingKedaCompExtension_metrics (pre ++ post)%list.
Proof.
  intros [Hr He]. induction pre as [|e pre IH]; simpl.
  - now rewrite !bool_decide_eq_false_2 by assumption.
  - rewrite IH. reflexivity.
Qed.

(** X9: a Resource entry that names its resource and leaves
    [averageUtilization] unset makes the KEDA evaluator panic when the entry
    is reached: the utilization is dereferenced for every resource, Memory
    with an average value included. *)
Theorem validateScalingKedaCompExtension_metrics_panics
    (entry : MetricsSpec.t) (rest : list MetricsSpec.t)
    (resource : ResourceMetricSource.t) (name : string) :
  MetricsSpec.Type_ entry = constants.AutoScalerResource ->
  MetricsSpec.Resource entry = Some resource ->
  ResourceMetricSource.Name resource = Some name ->
  MetricTarget.AverageUtilization (ResourceMetricSource.Target resource) = None ->
  validateScalingKedaCompExtension_metrics (entry :: rest) = Panics
  /\ validateScalingKedaCompExtension
       (ComponentExtensionSpec.mk None None
          (Some (AutoScalingSpec.mk (entry :: rest))) None) = Panics.
Proof.
  intros Ht Hr Hn Hu.
  assert (H : validateScalingKedaCompExtension_metrics (entry :: rest) = Panics).
  { simpl. rewrite bool_decide_eq_true_2 by assumption.
    rewrite Hr. simpl. rewrite Hn. simpl. now rewrite Hu. }
  split; [exact H |]. unfold validateScalingKedaCompExtension. simpl in *. exact H.
Qed.


(** X11: the choice of the bounds evaluator, in full.  The HPA evaluator is
    chosen for a raw deployment or the knative HPA class; otherwise the KEDA
    evaluator for the KEDA autoscaler class; otherwise the KPA evaluator.  The
    autoscaler-class annotation plays no part in choosing the HPA evaluator. *)
Theorem selectScalingEvaluator_table (annotations : gmap string string) :
  let deploymentMode := index annotations "serving.kserve.io/deploymentMode" in
  let annotationClass := index annotations autoscaling.ClassAnnotationKey in
  let autoscalerClass := index annotations constants.AutoscalerClass in
  (selectScalingEvaluator annotations = HPAEvaluator
   <-> deploymentMode = constants.RawDeployment \/ annotationClass = autoscaling.HPA)
  /\ (selectScalingEvaluator annotations = KedaEvaluator
      <-> deploymentMode <> constants.RawDeployment /\ annotationClass <> autoscaling.HPA
          /\ autoscalerClass = constants.AutoscalerClassKeda)
  /\ (selectScalingEvaluator annotations = KPAEvaluator
      <-> deploymentMode <> constants.RawDeployment /\ annotationClass <> autoscaling.HPA
          /\ autoscalerClass <> constants.AutoscalerClassKeda).
Proof.
  unfold selectScalingEvaluator, hpaCase, kedaCase. cbv zeta.
  repeat case_bool_decide; simpl; intuition congruence.
Qed.

End Evaluators.

Lemma validateScalingKedaCompExtension_without_autoScaling_witness :
  validateScalingKedaCompExtension
    (ComponentExtensionSpec.mk (Some 80) (Some "disk") None None) = Returns None.
Proof.
  apply (proj1 (validateScalingKedaCompExtension_without_autoScaling
    (ComponentExtensionSpec.mk (Some 80) (Some "disk") None None) eq_refl)).
  intros target [= <-]. split; [lia |]. intros [H | H]; discriminate H.
Defined.

Lemma validateScalingKedaCompExtension_metrics_untyped_witness :
  validateScalingKedaCompExtension_metrics
    [resourceMetric "cpu" 50; untypedMetric; resourceMetric "cpu" 500]
  = validateScalingKedaCompExtension_metrics
      [resourceMetric "cpu" 50; resourceMetric "cpu" 500].
Proof.
  apply (validateScalingKedaCompExtension_metrics_untyped
           [resourceMetric "cpu" 50] [resourceMetric "cpu" 500] untypedMetric).
  split; discriminate.
Defined.

Lemma validateScalingKedaCompExtension_metrics_panics_witness :
  validateScalingKedaCompExtension
    (ComponentExtensionSpec.mk None None
       (Some (AutoScalingSpec.mk [memoryAverageValueOnly])) None) = Panics.
Proof.
  refine (proj2 (validateScalingKedaCompExtension_metrics_panics
    memoryAverageValueOnly []
    (ResourceMetricSource.mk (Some "memory")
       (MetricTarget.mk None (Some (Q2Qc (inject_Z 2097152))) None))
    "memory" eq_refl eq_refl eq_refl eq_refl)).
Defined.


(** ** The target-utilization annotation *)

Lemma digit_of_pretty_N_char (m : N) :
  (m < 10)%N -> digit_of (pretty_N_char m) = Some (Z.of_N m).
Proof.
  intros Hm.
  assert (H : (m = 0 \/ m = 1 \/ m = 2 \/ m = 3 \/ m = 4 \/ m = 5 \/ m = 6 \/ m = 7
               \/ m = 8 \/ m = 9)%N) by lia.
  repeat (destruct H as [-> | H]; [reflexivity |]). now subst.
Qed.

Lemma parse_digits_pretty_N_go (x : N) :
  forall s, (0 < x)%N ->
  parse_digits 0 (pretty_N_go x s) = parse_digits (Z.of_N x) s.
Proof.
  induction (N.lt_wf_0 x) as [x _ IH]. intros s Hx.
  rewrite pretty_N_go_step by assumption.
  assert (Hm : (x `mod` 10 < 10)%N) by (apply N.mod_lt; lia).
  assert (Hx10 : Z.of_N x = Z.of_N (x `div` 10) * 10 + Z.of_N (x `mod` 10)).
  { rewrite (N.div_mod x 10) at 1 by lia. lia. }
  destruct (N.eq_dec (x `div` 10)%N 0%N) as [H0 | H0].
  - rewrite H0, pretty_N_go_0. simpl.
    rewrite (digit_of_pretty_N_char _ Hm). f_equal. rewrite Hx10, H0. lia.
  - rewrite IH; [| apply N.div_lt; lia | lia]. simpl.
    rewrite (digit_of_pretty_N_char _ Hm). now rewrite Hx10.
Qed.

Lemma strconv_Atoi_digits (c : ascii) (s : string) :
  digit_of c <> None ->
  strconv_Atoi (String c s)
  = match parse_digits 0 (String c s) with
    | Some n => if fits_int64 n then Some n else None
    | None => None
    end.
Proof.
  intros Hd. destruct c as [[] [] [] [] [] [] [] []];
    try (exfalso; apply Hd; reflexivity); reflexivity.
Qed.

Lemma strconv_Atoi_positive (p : positive) :
  strconv_Atoi (pretty (Zpos p)) = if fits_int64 (Zpos p) then Some (Zpos p) else None.
Proof.
  assert (Hp := parse_digits_pretty_N_go (Npos p) "" eq_refl).
  change (pretty (Zpos p)) with (pretty_N_go (Npos p) "").
  destruct (pretty_N_go (Npos p) "") as [|c s]; [discriminate |].
  rewrite strconv_Atoi_digits.
  - now rewrite Hp.
  - simpl in Hp. now destruct (digit_of c).
Qed.

Lemma strconv_Atoi_negative (p : positive) :
  strconv_Atoi (pretty (Zneg p)) = if fits_int64 (Zneg p) then Some (Zneg p) else None.
Proof.
  assert (Hp := parse_digits_pretty_N_go (Npos p) "" eq_refl).
  change (pretty (Zneg p)) with (String "-" (pretty_N_go (Npos p) "")).
  unfold strconv_Atoi.
  destruct (pretty_N_go (Npos p) "") as [|c s]; [discriminate |].
  now rewrite Hp.
Qed.

(** Parsing what [strconv.Itoa] prints gives the number back, when it fits
    64 bits. *)
Lemma strconv_Atoi_Itoa (z : Z) :
  strconv_Atoi (strconv_Itoa z) = if fits_int64 z then Some z else None.
Proof.
  destruct z as [|p|p].
  - reflexivity.
  - apply strconv_Atoi_positive.
  - apply strconv_Atoi_negative.
Qed.

Section TargetUtilization.
Context `{K : constants.t} `{U : utils.t}.

(** X12: a target-utilization annotation that holds an integer [t] in decimal,
    as [strconv.Itoa] prints it, passes exactly when [1 <= t <= 100], and is
    rejected with the percentage error otherwise; without the annotation the
    rule passes. *)
Theorem validateAutoscalerTargetUtilizationPercentage_decimal
    (isvc : InferenceService.t) :
  (InferenceService.Annotations isvc !! constants.TargetUtilizationPercentage = None ->
   validateAutoscalerTargetUtilizationPercentage isvc = Returns None)
  /\ (forall t,
        InferenceService.Annotations isvc !! constants.TargetUtilizationPercentage
          = Some (strconv_Itoa t) ->
        (1 <= t <= 100 ->
         validateAutoscalerTargetUtilizationPercentage isvc = Returns None)
        /\ (~ 1 <= t <= 100 ->
            validateAutoscalerTargetUtilizationPercentage isvc
            = Returns (Some percentageError))).
Proof.
  unfold validateAutoscalerTargetUtilizationPercentage. split.
  - now intros ->.
  - intros t ->. rewrite strconv_Atoi_Itoa. unfold fits_int64, percentageError.
    destruct (Z.leb_spec (- 2 ^ 63) t), (Z.leb_spec t (2 ^ 63 - 1)); simpl;
      try (split; [lia | reflexivity]).
    destruct (Z.ltb_spec t 1), (Z.gtb_spec t 100); simpl;
      split; intros; (reflexivity || lia).
Qed.

End TargetUtilization.

Lemma validateAutoscalerTargetUtilizationPercentage_decimal_witness :
  validateAutoscalerTargetUtilizationPercentage
    (plainService {[ "serving.kserve.io/targetUtilizationPercentage" := "150" ]})
  = Returns (Some percentageError).
Proof.
  refine (proj2 (proj2 (validateAutoscalerTargetUtilizationPercentage_decimal
    (plainService {[ "serving.kserve.io/targetUtilizationPercentage" := "150" ]}))
    150 eq_refl) _).
  lia.
Defined.

(** ** The storage URI of a multi-node model *)

Lemma string_app_nil_r (s : string) : s ++ "" = s.
Proof.
  induction s as [|c s IH]; [reflexivity |].
  change (String c (s ++ "") = String c s). now f_equal.
Qed.

Lemma string_app_assoc (a b c : string) : (a ++ b) ++ c = a ++ (b ++ c).
Proof.
  induction a as [|x a IH]; [reflexivity |].
  change (String x ((a ++ b) ++ c) = String x (a ++ (b ++ c))). now f_equal.
Qed.

Lemma Split_go_hd sep s :
  forall cur, List.hd "" (Split_go sep 0 cur s) = cur ++ List.hd "" (Split_go sep 0 "" s).
Proof.
  induction s as [|c s IH]; intros cur.
  - cbn [Split_go List.hd]. now rewrite string_app_nil_r.
  - cbn [Split_go]. destruct (String.prefix sep (String c s)).
    + cbn [List.hd]. now rewrite string_app_nil_r.
    + rewrite (IH (cur ++ String c "")), (IH ("" ++ String c "")).
      now rewrite !string_app_assoc.
Qed.

Lemma storageProtocol_String c s :
  storageProtocol (String c s)
  = if String.prefix "://" (String c s) then "" else String c (storageProtocol s).
Proof.
  unfold storageProtocol, strings_Split. cbn [Split_go].
  destruct (String.prefix "://" (String c s)); [reflexivity |].
  now rewrite Split_go_hd.
Qed.

Lemma prefix_separator s :
  String.prefix "://" s = true -> exists rest, s = "://" ++ rest.
Proof.
  destruct s as [|c1 [|c2 [|c3 rest]]]; cbn [String.prefix];
    repeat match goal with
           | |- context [ascii_dec ?a ?b] => destruct (ascii_dec a b) as [<- | ?]
           end;
    try discriminate.
  intros _. now exists rest.
Qed.

Lemma storageProtocol_pvc uri : storageProtocol uri = "pvc" <-> pvcURI uri.
Proof.
  unfold pvcURI. split.
  - destruct uri as [|c1 s1]; [discriminate |].
    rewrite storageProtocol_String.
    destruct (String.prefix "://" (String c1 s1)); [discriminate |].
    intros [= -> H1]. destruct s1 as [|c2 s2]; [discriminate |].
    rewrite storageProtocol_String in H1.
    destruct (String.prefix "://" (String c2 s2)); [discriminate |].
    injection H1 as -> H2. destruct s2 as [|c3 s3]; [discriminate |].
    rewrite storageProtocol_String in H2.
    destruct (String.prefix "://" (String c3 s3)); [discriminate |].
    injection H2 as -> H3. destruct s3 as [|c4 s4]; [now left |].
    rewrite storageProtocol_String in H3.
    destruct (String.prefix "://" (String c4 s4)) eqn:Hp; [| discriminate].
    apply prefix_separator in Hp as [rest ->]. right. now exists rest.
  - intros [-> | [[|c rest] ->]]; reflexivity.
Qed.

Section MultiNodeAcceptance.
Context `{K : constants.t} `{U : utils.t}.

Lemma validateMultiNodeVariables_model_accepts isvc model :
  validateMultiNodeVariables_model isvc model = Returns None
  <-> noParallelismEnv model
      /\ gpuTypeKnown isvc (Container.Resources (ModelSpec.Container model))
      /\ (exists uri, ModelSpec.StorageURI model = Some uri /\ pvcURI uri)
      /\ index (InferenceService.Annotations isvc) constants.AutoscalerClass
         = constants.AutoscalerClassExternal.
Proof.
  unfold validateMultiNodeVariables_model, checkGPUType, noParallelismEnv, gpuTypeKnown.
  cbv zeta.
  destruct (snd (utils.GetEnvVarValue _ constants.PipelineParallelSizeEnvName));
    [split; [discriminate | intros [[? _] _]; discriminate] |].
  destruct (snd (utils.GetEnvVarValue _ constants.TensorParallelSizeEnvName));
    [split; [discriminate | intros [[_ ?] _]; discriminate] |].
  destruct (utils.IsUnknownGpuResourceType _ _) as [[|] [err|]];
    try (split; [discriminate | intros (_ & ? & _); discriminate]).
  destruct (ModelSpec.StorageURI model) as [uri|];
    [| split; [discriminate | intros (_ & _ & (? & ? & _) & _); discriminate]].
  destruct (strings_Split_storageProtocol uri) as [rest ->].
  case_bool_decide as Hp; simpl.
  - case_bool_decide as Hc; simpl.
    + split; [| reflexivity]. intros _. repeat split; try assumption.
      exists uri. split; [reflexivity | now apply storageProtocol_pvc].
    + split; [discriminate | intros (_ & _ & _ & ?); contradiction].
  - split; [discriminate |].
    intros (_ & _ & (uri' & [= <-] & Hpvc) & _). now apply storageProtocol_pvc in Hpvc.
Qed.

Lemma validateMultiNodeVariables_containers_accepts isvc containers :
  validateMultiNodeVariables_containers isvc containers = Returns None
  <-> forall c, c ∈ containers -> gpuTypeKnown isvc (Container.Resources c).
Proof.
  split; [| apply validateMultiNodeVariables_containers_known].
  induction containers as [|c cs IH]; simpl; [intros _ c Hc; inversion Hc |].
  unfold checkGPUType, gpuTypeKnown in *.
  destruct (utils.IsUnknownGpuResourceType (Container.Resources c) _)
    as [[|] [err|]] eqn:Hg; try discriminate.
  intros H c' [-> | Hc']%elem_of_cons; [exact Hg | now apply IH].
Qed.

(** X13: for a model whose environment sets no parallelism variable and whose
    GPU resource type is known, under the External autoscaler class, the
    checks on the model pass exactly when the storage URI is present and is
    either ["pvc"] itself or begins with ["pvc://"]; a URI without any
    ["://"] is compared as a whole. *)
Theorem validateMultiNodeVariables_model_pvc (isvc : InferenceService.t) (model : ModelSpec.t) :
  noParallelismEnv model ->
  gpuTypeKnown isvc (Container.Resources (ModelSpec.Container model)) ->
  index (InferenceService.Annotations isvc) constants.AutoscalerClass
    = constants.AutoscalerClassExternal ->
  validateMultiNodeVariables_model isvc model = Returns None
  <-> exists uri, ModelSpec.StorageURI model = Some uri
                  /\ (uri = "pvc" \/ exists rest, uri = "pvc://" ++ rest).
Proof.
  intros He Hg Hc. rewrite validateMultiNodeVariables_model_accepts.
  unfold pvcURI. intuition.
Qed.

(** X14: multi-node validation of a predictor with a worker topology and a
    built-in model returns no error exactly when there is at most one worker
    container, the model sets no parallelism variable, its GPU resource type
    is known, its storage URI is a [pvc] one, the autoscaler class is
    External, [pipelineParallelSize] is unset or at least 2,
    [tensorParallelSize] is unset or at least 1, and the GPU resource type of
    every worker container is known. *)
Theorem validateMultiNodeVariables_accepts
    (isvc : InferenceService.t) (workerSpec : WorkerSpec.t) (model : ModelSpec.t) :
  PredictorSpec.WorkerSpec (predictorOf isvc) = Some workerSpec ->
  PredictorSpec.Model (predictorOf isvc) = Some model ->
  validateMultiNodeVariables isvc = Returns None
  <-> atMostOneContainer workerSpec
      /\ noParallelismEnv model
      /\ gpuTypeKnown isvc (Container.Resources (ModelSpec.Container model))
      /\ (exists uri, ModelSpec.StorageURI model = Some uri /\ pvcURI uri)
      /\ index (InferenceService.Annotations isvc) constants.AutoscalerClass
         = constants.AutoscalerClassExternal
      /\ pipelineParallelSizeOK workerSpec
      /\ tensorParallelSizeOK workerSpec
      /\ (forall c, c ∈ WorkerSpec.Containers workerSpec ->
            gpuTypeKnown isvc (Container.Resources c)).
Proof.
  intros Hw Hm. unfold validateMultiNodeVariables, atMostOneContainer,
    pipelineParallelSizeOK, tensorParallelSizeOK.
  unfold predictorOf in *. rewrite Hw, Hm.
  rewrite <- validateMultiNodeVariables_containers_accepts.
  destruct (Nat.ltb_spec 1 (length (WorkerSpec.Containers workerSpec))) as [Hlen | Hlen].
  { split; [discriminate | intros [? _]; lia]. }
  split.
  - intros [Hmodel [Hpps [Htps Hcs]%check_None_inv]%check_None_inv]%check_None_inv.
    apply validateMultiNodeVariables_model_accepts in Hmodel as (? & ? & ? & ?).
    do 5 (split; [assumption |]). split; [| split; [| assumption]].
    + intros pps Hp. rewrite Hp in Hpps. destruct (Z.ltb_spec pps 2); [discriminate | lia].
    + intros tps Ht. rewrite Ht in Htps. destruct (Z.ltb_spec tps 1); [discriminate | lia].
  - intros (_ & He & Hg & Hu & Hc & Hpps & Htps & Hcs).
    rewrite (proj2 (validateMultiNodeVariables_model_accepts isvc model))
      by (repeat split; assumption || apply He).
    simpl. rewrite Hcs.
    destruct (WorkerSpec.PipelineParallelSize workerSpec) as [pps|];
      [specialize (Hpps pps eq_refl); destruct (Z.ltb_spec pps 2); [lia |] |];
      (destruct (WorkerSpec.TensorParallelSize workerSpec) as [tps|];
       [specialize (Htps tps eq_refl); destruct (Z.ltb_spec tps 1); [lia |] |]);
      reflexivity.
Qed.

End MultiNodeAcceptance.

Section MultiNodeWithoutModel.
Context `{K : constants.t} `{U : utils.t}.

(** C10: with a worker topology and no built-in model, multi-node validation
    applies the check of at most one worker container, then the bound on
    [pipelineParallelSize], then the bound on [tensorParallelSize], then the
    GPU-type check of the worker containers, and nothing else.  Each of the
    four rejects with its own error; in particular a worker container whose
    GPU resource type is unknown, or whose lookup fails, is rejected.  A
    resource passes exactly when the four pass: it has no model storage URI,
    and its annotations, the autoscaler class among them, are arbitrary. *)
Theorem validateMultiNodeVariables_without_model
    (isvc : InferenceService.t) (workerSpec : WorkerSpec.t) :
  PredictorSpec.WorkerSpec (predictorOf isvc) = Some workerSpec ->
  PredictorSpec.Model (predictorOf isvc) = None ->
  let name := InferenceService.Name isvc in
  let annotations := InferenceService.Annotations isvc in
  let r := validateMultiNodeVariables isvc in
  (~ atMostOneContainer workerSpec ->
   r = Returns (Some (fmt_Errorf DisallowedMultipleContainersInWorkerSpecError [name])))
  /\ (atMostOneContainer workerSpec ->
      forall pps, WorkerSpec.PipelineParallelSize workerSpec = Some pps -> pps < 2 ->
      r = Returns (Some (fmt_Errorf InvalidWorkerSpecPipelineParallelSizeValueError
                           [name; strconv_Itoa pps])))
  /\ (atMostOneContainer workerSpec -> pipelineParallelSizeOK workerSpec ->
      forall tps, WorkerSpec.TensorParallelSize workerSpec = Some tps -> tps < 1 ->
      r = Returns (Some (fmt_Errorf InvalidWorkerSpecTensorParallelSizeValueError
                           [name; strconv_Itoa tps])))
  /\ (atMostOneContainer workerSpec -> pipelineParallelSizeOK workerSpec ->
      tensorParallelSizeOK workerSpec ->
      (forall c, c ∈ WorkerSpec.Containers workerSpec ->
         (utils.IsUnknownGpuResourceType (Container.Resources c) annotations = (true, None) ->
          r = Returns (Some (fmt_Errorf InvalidUnknownGPUTypeError [name])))
         /\ (forall unknown err,
               utils.IsUnknownGpuResourceType (Container.Resources c) annotations
                 = (unknown, Some err) ->
               r = Returns (Some err)))
      /\ (r = Returns None
          <-> forall c, c ∈ WorkerSpec.Containers workerSpec ->
                gpuTypeKnown isvc (Container.Resources c))
      /\ ((forall c, c ∈ WorkerSpec.Containers workerSpec ->
             gpuTypeKnown isvc (Container.Resources c)) ->
          modelStorageURI isvc = None /\ r = Returns None)).
Proof.
  intros Hw Hm name annotations r.
  destruct (validateMultiNodeVariables_without_model_order isvc workerSpec Hw Hm)
    as (H1 & H2 & H3 & H4).
  split; [exact H1 |]. split; [exact H2 |]. split; [exact H3 |].
  intros Hone Hpps Htps. destruct (H4 Hone Hpps Htps) as [Hloop Hknown].
  split; [| split; [| exact Hknown]].
  - intros c Hc. subst r. rewrite Hloop. unfold atMostOneContainer in Hone.
    destruct (WorkerSpec.Containers workerSpec) as [|c0 [|c1 rest]];
      [inversion Hc | | simpl in Hone; lia].
    apply elem_of_cons in Hc as [-> | Hc]; [| inversion Hc].
    simpl. unfold checkGPUType. fold annotations. split.
    + now intros ->.
    + intros unknown err ->. now destruct unknown.
  - subst r. rewrite Hloop. apply validateMultiNodeVariables_containers_accepts.
Qed.

End MultiNodeWithoutModel.

(** The same resource passes with collaborators that know every GPU type and
    is rejected, for its worker container, with collaborators that know
    none. *)
Lemma validateMultiNodeVariables_without_model_witness :
  index (InferenceService.Annotations customContainerMultiNode) constants.AutoscalerClass
    <> constants.AutoscalerClassExternal
  /\ modelStorageURI customContainerMultiNode = None
  /\ validateMultiNodeVariables customContainerMultiNode = Returns None
  /\ validateMultiNodeVariables (U := unknownGpuUtils) customContainerMultiNode
     = Returns (Some (fmt_Errorf InvalidUnknownGPUTypeError ["llm"])).
Proof.
  split; [vm_compute; discriminate |].
  destruct (validateMultiNodeVariables_without_model customContainerMultiNode
              (WorkerSpec.mk [Container.mk "worker-container" [] noResources]
                 (Some 2) (Some 1)) eq_refl eq_refl) as (_ & _ & _ & H).
  destruct (validateMultiNodeVariables_without_model (U := unknownGpuUtils)
              customContainerMultiNode
              (WorkerSpec.mk [Container.mk "worker-container" [] noResources]
                 (Some 2) (Some 1)) eq_refl eq_refl) as (_ & _ & _ & H').
  assert (Hone : atMostOneContainer
            (WorkerSpec.mk [Container.mk "worker-container" [] noResources]
               (Some 2) (Some 1))) by (unfold atMostOneContainer; simpl; lia).
  assert (Hpps : pipelineParallelSizeOK
            (WorkerSpec.mk [Container.mk "worker-container" [] noResources]
               (Some 2) (Some 1))) by (intros pps [= <-]; lia).
  assert (Htps : tensorParallelSizeOK
            (WorkerSpec.mk [Container.mk "worker-container" [] noResources]
               (Some 2) (Some 1))) by (intros tps [= <-]; lia).
  destruct (H Hone Hpps Htps) as (_ & _ & Hpass).
  destruct (H' Hone Hpps Htps) as (Hreject & _ & _).
  split; [apply Hpass; intros c _; reflexivity |].
  split; [apply Hpass; intros c _; reflexivity |].
  apply (Hreject (Container.mk "worker-container" [] noResources)); [left | reflexivity].
Defined.

Lemma validateMultiNodeVariables_model_pvc_witness :
  validateMultiNodeVariables_model pvcMultiNode
    (ModelSpec.mk (Some "pvc") (Container.mk "kserve-container" [] noResources))
  = Returns None.
Proof.
  apply (validateMultiNodeVariables_model_pvc pvcMultiNode
           (ModelSpec.mk (Some "pvc") (Container.mk "kserve-container" [] noResources))).
  - split; reflexivity.
  - reflexivity.
  - reflexivity.
  - exists "pvc". split; [reflexivity | now left].
Defined.

Lemma validateMultiNodeVariables_accepts_witness :
  validateMultiNodeVariables pvcMultiNode = Returns None.
Proof.
  apply (validateMultiNodeVariables_accepts pvcMultiNode
           (WorkerSpec.mk [Container.mk "worker-container" [] noResources]
              (Some 2) (Some 1)) pvcModel eq_refl eq_refl).
  split; [unfold atMostOneContainer; simpl; lia |].
  split; [split; reflexivity |].
  split; [reflexivity |].
  split; [exists "pvc://claim/model"; split; [reflexivity | right; now exists "claim/model"] |].
  split; [reflexivity |].
  split; [intros pps [= <-]; lia |].
  split; [intros tps [= <-]; lia |].
  intros c _. reflexivity.
Defined.

(** ** The orchestrator *)

Lemma check_not_panics c k : c <> Panics -> k <> Panics -> (do! c ;! k) <> Panics.
Proof. now destruct c as [[e|]|]. Qed.

Section Orchestrator.
Context `{K : constants.t} `{U : utils.t}.

Lemma validateInferenceService_component_None annotations component :
  validateInferenceService_component annotations component = Returns None ->
  length (Component.GetImplementations component) = 1%nat
  /\ componentRulesPass annotations component.
Proof.
  unfold validateInferenceService_component, validateExactlyOneImplementation,
    GetImplementation, componentRulesPass.
  destruct (Component.GetImplementations component) as [|implementation [|? ?]];
    simpl; try discriminate.
  destruct (validateAutoScalingCompExtension _ _) as [e3|]; [| discriminate].
  destruct (ComponentImplementation.Validate implementation) eqn:H1; [discriminate |].
  destruct (utils.ComponentExtensionSpec_Validate _) eqn:H2; [discriminate |].
  destruct e3; [discriminate |].
  intros _. split; [reflexivity |]. split; [| now split].
  intros i [-> | Hi]%elem_of_cons; [assumption | inversion Hi].
Qed.

Lemma validateInferenceService_components_None annotations components :
  validateInferenceService_components annotations components = Returns None ->
  forall c, Some c ∈ components ->
    length (Component.GetImplementations c) = 1%nat /\ componentRulesPass annotations c.
Proof.
  induction components as [|[c|] cs IH]; simpl; intros H c' Hc'.
  - inversion Hc'.
  - apply check_None_inv in H as [Hc Hcs].
    apply elem_of_cons in Hc' as [[= ->] | Hc'].
    + now apply validateInferenceService_component_None.
    + now apply IH.
  - apply elem_of_cons in Hc' as [[=] | Hc']. now apply IH.
Qed.



Lemma validateCollocationStorageURI_containers_first pre c post :
  (forall c', c' ∈ pre -> ~ isTransformer c') ->
  isTransformer c -> declaresStorageUri c ->
  validateCollocationStorageURI_containers (pre ++ c :: post)%list
  = Returns (Some collocationError).
Proof.
  unfold isTransformer, declaresStorageUri. intros Hpre Hc Hd.
  induction pre as [|p pre IH]; simpl.
  - rewrite bool_decide_eq_true_2 by assumption.
    now apply validateCollocationStorageURI_env_spec.
  - rewrite bool_decide_eq_false_2 by (apply Hpre; left).
    apply IH. intros c' Hc'. apply Hpre. now right.
Qed.

Lemma validateMultiNodeVariables_None isvc workerSpec :
  validateMultiNodeVariables isvc = Returns None ->
  PredictorSpec.WorkerSpec (predictorOf isvc) = Some workerSpec ->
  atMostOneContainer workerSpec
  /\ pipelineParallelSizeOK workerSpec
  /\ tensorParallelSizeOK workerSpec
  /\ (forall c, c ∈ WorkerSpec.Containers workerSpec ->
        gpuTypeKnown isvc (Container.Resources c))
  /\ (forall model, PredictorSpec.Model (predictorOf isvc) = Some model ->
        validateMultiNodeVariables_model isvc model = Returns None).
Proof.
  unfold validateMultiNodeVariables, atMostOneContainer, pipelineParallelSizeOK,
    tensorParallelSizeOK, predictorOf.
  intros H Hw. rewrite Hw in H.
  destruct (Nat.ltb_spec 1 (length (WorkerSpec.Containers workerSpec))) as [Hlen | Hlen];
    [discriminate |].
  apply check_None_inv in H as [Hmodel H]. apply check_None_inv in H as [Hpps H].
  apply check_None_inv in H as [Htps Hcs].
  split; [exact Hlen |]. split; [| split; [| split]].
  - intros pps Hp. rewrite Hp in Hpps. destruct (Z.ltb_spec pps 2); [discriminate | lia].
  - intros tps Ht. rewrite Ht in Htps. destruct (Z.ltb_spec tps 1); [discriminate | lia].
  - now apply validateMultiNodeVariables_containers_accepts.
  - intros model Hm. now rewrite Hm in Hmodel.
Qed.

(** X15: what an accepted resource satisfies.  Its name is of the grammar; an
    autoscaler-class annotation, if any, is in the allow-list; a
    target-utilization annotation in decimal is within [1, 100]; a worker
    topology has at most one container, admissible parallel sizes and known
    GPU types, and with a built-in model also no parallelism variable, a
    [pvc] storage URI and the External class; the first container named with
    the transformer role does not declare the storage-URI key; and the
    predictor, the transformer if set and the explainer if set each have
    exactly one implementation, whose validation, the validation of the
    extension and the bounds evaluator all pass. *)
Theorem validateInferenceService_accepted_sound (isvc : InferenceService.t) :
  validateInferenceService isvc = Returns ([], None) ->
  let spec := InferenceService.Spec isvc in
  let annotations := InferenceService.Annotations isvc in
  let predictor := InferenceServiceSpec.Predictor spec in
  DNSLabel (InferenceService.Name isvc)
  /\ (forall value, annotations !! constants.AutoscalerClass = Some value ->
        value ∈ constants.AutoscalerAllowedClassList)
  /\ (forall t, annotations !! constants.TargetUtilizationPercentage
                  = Some (strconv_Itoa t) -> 1 <= t <= 100)
  /\ (forall workerSpec, PredictorSpec.WorkerSpec predictor = Some workerSpec ->
        atMostOneContainer workerSpec
        /\ pipelineParallelSizeOK workerSpec
        /\ tensorParallelSizeOK workerSpec
        /\ (forall c, c ∈ WorkerSpec.Containers workerSpec ->
              gpuTypeKnown isvc (Container.Resources c))
        /\ (forall model, PredictorSpec.Model predictor = Some model ->
              noParallelismEnv model
              /\ gpuTypeKnown isvc (Container.Resources (ModelSpec.Container model))
              /\ (exists uri, ModelSpec.StorageURI model = Some uri /\ pvcURI uri)
              /\ index annotations constants.AutoscalerClass
                 = constants.AutoscalerClassExternal))
  /\ (forall pre c post,
        PredictorSpec.Containers predictor = (pre ++ c :: post)%list ->
        (forall c', c' ∈ pre -> ~ isTransformer c') ->
        isTransformer c -> ~ declaresStorageUri c)
  /\ (length (PredictorSpec.Implementations predictor) = 1%nat
      /\ componentRulesPass annotations (Component_of_Predictor predictor))
  /\ (forall transformer,
        InferenceServiceSpec.Transformer spec = Some transformer ->
        length (TransformerSpec.Implementations transformer) = 1%nat
        /\ componentRulesPass annotations (Component_of_Transformer transformer))
  /\ (forall explainer,
        InferenceServiceSpec.Explainer spec = Some explainer ->
        length (ExplainerSpec.Implementations explainer) = 1%nat
        /\ componentRulesPass annotations (Component_of_Explainer explainer)).
Proof.
  intros Hacc spec annotations predictor.
  unfold validateInferenceService in Hacc.
  destruct (validateInferenceService_rules isvc) as [[e|]|] eqn:Hr; try discriminate.
  clear Hacc. unfold validateInferenceService_rules in Hr.
  apply check_None_inv in Hr as [H1 Hr]. apply check_None_inv in Hr as [H2 Hr].
  apply check_None_inv in Hr as [H3 Hr]. apply check_None_inv in Hr as [H4 Hr].
  apply check_None_inv in Hr as [H5 Hc].
  assert (Hcomp := validateInferenceService_components_None _ _ Hc).
  split; [| split; [| split; [| split; [| split; [| split; [| split]]]]]].
  - apply MatchString_IsvcRegexp. unfold validateInferenceServiceName in H1.
    now destruct (MatchString IsvcRegexp (InferenceService.Name isvc)).
  - intros value Hv.
    destruct (decide (value ∈ constants.AutoscalerAllowedClassList)) as [Hin | Hn];
      [exact Hin |].
    rewrite (validateInferenceServiceAutoscaler_not_allowed isvc value Hv Hn) in H2.
    discriminate.
  - intros t Ht. unfold validateAutoscalerTargetUtilizationPercentage in H3.
    fold annotations in H3. rewrite Ht, strconv_Atoi_Itoa in H3.
    destruct (fits_int64 t); [| discriminate].
    destruct (Z.ltb_spec t 1), (Z.gtb_spec t 100); simpl in H3; try discriminate. lia.
  - intros workerSpec Hw.
    destruct (validateMultiNodeVariables_None isvc workerSpec H4 Hw)
      as (Hone & Hpps & Htps & Hcs & Hmodel).
    do 4 (split; [assumption |]).
    intros model Hm. now apply validateMultiNodeVariables_model_accepts, Hmodel.
  - intros pre c post Hsplit Hpre Ht Hd.
    unfold validateCollocationStorageURI in H5. fold spec predictor in H5.
    rewrite Hsplit in H5.
    rewrite (validateCollocationStorageURI_containers_first pre c post Hpre Ht Hd) in H5.
    discriminate.
  - apply (Hcomp (Component_of_Predictor predictor)). left.
  - intros transformer Ht. apply (Hcomp (Component_of_Transformer transformer)).
    unfold components_of. fold spec. rewrite Ht. right. left.
  - intros explainer He. apply (Hcomp (Component_of_Explainer explainer)).
    unfold components_of. fold spec. rewrite He. right. right. left.
Qed.

Lemma validateInferenceServiceAutoscaler_not_panics isvc :
  ComponentExtensionSpec.AutoScaling (predictorExtensions isvc) = None ->
  validateInferenceServiceAutoscaler isvc <> Panics.
Proof.
  intros Ha. unfold validateInferenceServiceAutoscaler.
  destruct (InferenceService.Annotations isvc !! constants.AutoscalerClass) as [value|];
    [| discriminate].
  assert (Hs : forall r,
    validateInferenceServiceAutoscaler_switch isvc (InferenceService.Annotations isvc)
      value = Some r -> r <> Panics).
  { unfold validateInferenceServiceAutoscaler_switch, validateHPAMetrics,
      validateKEDAMetrics. unfold predictorExtensions in Ha. rewrite Ha.
    intros r Hr. repeat (case_match; simplify_eq); discriminate. }
  induction constants.AutoscalerAllowedClassList as [|item items IH]; simpl;
    [discriminate |].
  case_bool_decide; [| exact IH].
  destruct (validateInferenceServiceAutoscaler_switch _ _ _) as [r|]; [now apply Hs | exact IH].
Qed.

Lemma validateMultiNodeVariables_not_panics isvc :
  validateMultiNodeVariables isvc <> Panics.
Proof.
  assert (Hcs : forall cs, validateMultiNodeVariables_containers isvc cs <> Panics).
  { induction cs as [|c cs IH]; simpl; [discriminate |].
    unfold checkGPUType. repeat case_match; (discriminate || exact IH). }
  unfold validateMultiNodeVariables.
  destruct (PredictorSpec.WorkerSpec _) as [workerSpec|]; [| discriminate].
  case_match; [discriminate |].
  repeat apply check_not_panics; try apply Hcs; try (repeat case_match; discriminate).
  destruct (PredictorSpec.Model _) as [model|]; [| discriminate].
  unfold validateMultiNodeVariables_model, checkGPUType.
  repeat (case_match; try discriminate).
  match goal with
  | H : strings_Split ?uri _ = [] |- _ =>
      destruct (strings_Split_storageProtocol uri) as [? Hsplit]; congruence
  end.
Qed.

Lemma validateCollocationStorageURI_not_panics predictorSpec :
  validateCollocationStorageURI predictorSpec <> Panics.
Proof.
  unfold validateCollocationStorageURI.
  induction (PredictorSpec.Containers predictorSpec) as [|c cs IH]; simpl;
    [discriminate |].
  case_bool_decide; [| exact IH].
  destruct (validateCollocationStorageURI_env_total (Container.Env c)) as [-> | ->];
    discriminate.
Qed.

Lemma validateAutoScalingCompExtension_not_panics annotations compExtSpec :
  ComponentExtensionSpec.AutoScaling compExtSpec = None ->
  validateAutoScalingCompExtension annotations compExtSpec <> Panics.
Proof.
  intros Ha. unfold validateAutoScalingCompExtension.
  destruct (selectScalingEvaluator annotations); simpl.
  - unfold validateScalingHPACompExtension, validateHPAMetrics.
    repeat (case_match; simpl; try discriminate).
  - unfold validateScalingKedaCompExtension. rewrite Ha.
    repeat (case_match; simpl; try discriminate).
  - unfold validateScalingKPACompExtension, validateKPAMetrics.
    case_match; [discriminate |].
    apply check_not_panics; [| repeat case_match; discriminate].
    induction constants.AutoScalerKPAMetricsAllowedList as [|item items IH]; simpl;
      [discriminate |].
    case_bool_decide; [discriminate | exact IH].
Qed.

(** X16: the validation of a resource none of whose components declares
    [autoScaling] does not panic: it returns, with a nil or a non-nil error. *)
Theorem validateInferenceService_not_panics (isvc : InferenceService.t) :
  noAutoScaling isvc ->
  exists err, validateInferenceService isvc = Returns ([], err).
Proof.
  intros Hno.
  assert (Hr : validateInferenceService_rules isvc <> Panics).
  { unfold validateInferenceService_rules.
    apply check_not_panics;
      [unfold validateInferenceServiceName; case_match; discriminate |].
    apply check_not_panics.
    { apply validateInferenceServiceAutoscaler_not_panics.
      apply (Hno (Component_of_Predictor
                    (InferenceServiceSpec.Predictor (InferenceService.Spec isvc)))).
      left. }
    apply check_not_panics;
      [unfold validateAutoscalerTargetUtilizationPercentage;
       repeat case_match; discriminate |].
    apply check_not_panics; [apply validateMultiNodeVariables_not_panics |].
    apply check_not_panics; [apply validateCollocationStorageURI_not_panics |].
    unfold noAutoScaling in Hno. revert Hno.
    generalize (components_of isvc) as cs.
    induction cs as [|[c|] cs IH]; simpl; intros Hno; [discriminate | |].
    - apply check_not_panics; [| apply IH; intros c' Hc'; apply Hno; now right].
      unfold validateInferenceService_component, validateExactlyOneImplementation,
        GetImplementation.
      assert (Hc := validateAutoScalingCompExtension_not_panics
                      (InferenceService.Annotations isvc) _ (Hno c ltac:(left))).
      destruct (Component.GetImplementations c) as [|implementation [|? ?]];
        simpl; try discriminate.
      destruct (validateAutoScalingCompExtension _ _); [discriminate | contradiction].
    - apply IH. intros c' Hc'. apply Hno. now right. }
  unfold validateInferenceService.
  destruct (validateInferenceService_rules isvc) as [err|]; [eauto | contradiction].
Qed.

End Orchestrator.

Lemma validateInferenceService_accepted_sound_witness :
  DNSLabel "sklearn-iris"
  /\ (forall explainer,
        InferenceServiceSpec.Explainer (InferenceService.Spec fullService) = Some explainer ->
        length (ExplainerSpec.Implementations explainer) = 1%nat
        /\ componentRulesPass (InferenceService.Annotations fullService)
             (Component_of_Explainer explainer)).
Proof.
  destruct (validateInferenceService_accepted_sound fullService)
    as (Hname & _ & _ & _ & _ & _ & _ & Hexplainer).
  - vm_compute. reflexivity.
  - split; [exact Hname | exact Hexplainer].
Defined.

Lemma validateInferenceService_not_panics_witness :
  exists err, validateInferenceService noImplementation = Returns ([], err).
Proof.
  apply (validateInferenceService_not_panics noImplementation).
  intros c Hc. repeat (apply elem_of_cons in Hc as [Hc | Hc]; [now simplify_eq |]).
  inversion Hc.
Defined.

(** ** Collocation with distinct container names *)

Section CollocationDistinct.
Context `{K : constants.t} `{U : utils.t}.

(** X17: when the containers of the predictor have pairwise distinct names,
    the collocation check fails, with the transformer-storage-URI error,
    exactly when some container named with the transformer role declares the
    model-storage-URI key. *)
Theorem validateCollocationStorageURI_distinct_names (predictorSpec : PredictorSpec.t) :
  NoDup (Container.Name <$> PredictorSpec.Containers predictorSpec) ->
  validateCollocationStorageURI predictorSpec = Returns (Some collocationError)
  <-> exists c, c ∈ PredictorSpec.Containers predictorSpec
                /\ isTransformer c /\ declaresStorageUri c.
Proof.
  unfold validateCollocationStorageURI, isTransformer, declaresStorageUri.
  induction (PredictorSpec.Containers predictorSpec) as [|c cs IH]; simpl; intros Hnd.
  - split; [discriminate | intros (c & Hc & _); inversion Hc].
  - inversion Hnd as [|? ? Hfresh Hnd']; subst. case_bool_decide as Hn.
    + rewrite validateCollocationStorageURI_env_spec. split.
      * intros Hd. exists c. split; [left | auto].
      * intros (c' & [-> | Hc']%elem_of_cons & Ht & Hd); [exact Hd |].
        destruct Hfresh. rewrite Hn, <- Ht. now apply list_elem_of_fmap_2.
    + rewrite (IH Hnd'). split.
      * intros (c' & Hc' & Ht & Hd). exists c'. split; [now right | auto].
      * intros (c' & [-> | Hc']%elem_of_cons & Ht & Hd); [contradiction | eauto].
Qed.

End CollocationDistinct.

Lemma validateCollocationStorageURI_distinct_names_witness :
  validateCollocationStorageURI
    (PredictorSpec.mk None None
       [Container.mk "kserve-container" [] noResources; transformerWithStorageUri]
       noExtensions [validImplementation])
  = Returns (Some collocationError).
Proof.
  apply (validateCollocationStorageURI_distinct_names
    (PredictorSpec.mk None None
       [Container.mk "kserve-container" [] noResources; transformerWithStorageUri]
       noExtensions [validImplementation])).
  - apply NoDup_cons_2; [| apply NoDup_cons_2; [inversion 1 | apply NoDup_nil_2]].
    intros H. apply elem_of_cons in H as [H | H]; [discriminate H | inversion H].
  - exists transformerWithStorageUri. split; [right; left |]. split; [reflexivity |].
    exists (EnvVar.mk "STORAGE_URI" "s3://bucket/model"). split; [left | reflexivity].
Defined.

(** ** The webhook entry points *)

Section WebhookProperties.
Context `{K : constants.t} `{U : utils.t}.

(** X18: update validation does not look at the prior object: what it does is
    what create validation does on the new object.  Delete validation returns
    no error exactly for a non-nil InferenceService, whatever it holds; and an
    object that is not an InferenceService makes all three return the
    conversion error, naming its type, without validating anything. *)
Theorem webhook_entry_points (oldObj obj : runtime_Object) :
  snd (ValidateUpdate oldObj obj) = snd (ValidateCreate obj)
  /\ (snd (ValidateDelete obj) = Returns ([], None)
      <-> exists isvc, obj = InferenceServiceObject (Some isvc))
  /\ (forall dynamicType, obj = OtherObject dynamicType ->
      let err := fmt_Errorf (Literal "expected an InferenceService object but got %T")
                   [dynamicType] in
      snd (ValidateCreate obj) = Returns ([], Some err)
      /\ snd (ValidateUpdate oldObj obj) = Returns ([], Some err)
      /\ snd (ValidateDelete obj) = Returns ([], Some err)).
Proof.
  split; [| split].
  - unfold ValidateUpdate, ValidateCreate. now destruct obj as [|[isvc|]|].
  - unfold ValidateDelete. destruct obj as [|[isvc|]|]; simpl; split;
      try discriminate; try (intros [? [=]]); eauto.
  - intros dynamicType ->. repeat split.
Qed.

End WebhookProperties.

(** ** Defaults of LLMInferenceService *)

(** X19: [SetDefaults] is idempotent, and it leaves the model name non-nil:
    the name that was set when it was set and not empty, the name of the
    resource otherwise; the name of the resource itself is not changed. *)
Theorem LLMInferenceService_SetDefaults_spec (in_ : LLMInferenceService.t) :
  let out := LLMInferenceService.SetDefaults in_ in
  let modelName x :=
    LLMModelSpec.Name (LLMInferenceServiceSpec.Model (LLMInferenceService.Spec x)) in
  LLMInferenceService.SetDefaults out = out
  /\ LLMInferenceService.Name out = LLMInferenceService.Name in_
  /\ (forall name, modelName in_ = Some name -> name <> "" -> out = in_)
  /\ (modelName in_ = None \/ modelName in_ = Some "" ->
      modelName out = Some (LLMInferenceService.GetName in_))
  /\ modelName out <> None
  /\ (LLMInferenceService.Name in_ <> "" -> modelName out <> Some "").
Proof.
  destruct in_ as [name [[[modelName|]]]]; unfold LLMInferenceService.SetDefaults;
    simpl; repeat case_bool_decide; simpl; repeat case_bool_decide; subst;
    repeat split; try congruence; try discriminate;
    try (intros ? [= <-] ?; congruence); try (intros [? | [= ?]]; congruence);
    try (intros ? [= ?]; congruence); intuition congruence.
Qed.
